(** * A shallow embedding of [app.py], the Streamlit dashboard

    The program is one Python script.  It logs a user in, lets the
    administrator replace the contents of the PostgreSQL table [dados] by an
    uploaded CSV file, reads the table back, filters it on two columns and
    exports the filtered view as a spreadsheet and as a PDF document.

    What is embedded from the script, under the script's own names:
    [get_connection], [login], [check_role], [load_csv_to_postgres],
    [get_data], [to_pdf] and [main]; the dictionary [users], which the
    script reads from the environment, and [to_excel], which only wraps the
    spreadsheet writer, are parameters of [login] and [main].

    What the script only calls is kept apart from it:
    - PostgreSQL as seen through psycopg2 is a transactional store (section
      "The store"): a connection works on its own view of the table and
      [commit] publishes it; Python's floats and the values of a NUMERIC
      column, with their conversions, are interfaces ([PyFloat],
      [PgNumeric]);
    - pandas frames are a list of column names and a list of rows; the
      values of a frame have one dtype, which [iterrows] hands over;
    - an uploaded file is what [pd.read_csv] makes of it;
    - FPDF (the fpdf2 library, the one that has [epw]) records the
      drawing calls it receives and refuses a text that its built-in font
      cannot encode; how the document is serialised is an interface
      ([FpdfLib]);
    - Streamlit is the session state, the widget values of one script run
      and the two control exceptions raised by [st.stop] and
      [st.experimental_rerun]. *)

From Stdlib Require Import ZArith QArith String Ascii DecimalString.
From stdpp Require Import gmap list.

Close Scope Q_scope.
Open Scope Z_scope.

(** ** Python values *)

(** A Python [str] is a sequence of Unicode code points. *)
Abbreviation pystr := (list N).

(** An ASCII literal of the script as a Python [str]. *)
Definition py (s : string) : pystr :=
  N_of_ascii <$> list_ascii_of_string s.

(** The exceptions that the script and the libraries it calls can raise. *)
Inductive exn :=
| ParserError          (* pandas: the file is no CSV table *)
| OperationalError     (* psycopg2.connect: the server cannot be reached *)
| InterfaceError       (* psycopg2: the connection is already closed *)
| ProgrammingError     (* psycopg2: can't adapt a parameter; nothing to fetch *)
| UndefinedTable       (* PostgreSQL: relation "dados" does not exist *)
| DataError            (* PostgreSQL: the value is no NUMERIC *)
| IndexError
| KeyError
| AttributeError
| ZeroDivisionError
| FPDFUnicodeEncodingException  (* fpdf: the font cannot encode the text *)
| XlsxError            (* whatever the spreadsheet writer raises *)
| StopException        (* st.stop() *)
| RerunException.      (* st.experimental_rerun() *)

#[global] Instance exn_eq_dec : EqDecision exn.
Proof. solve_decision. Defined.

(** A computation without side effect: a value or a raised exception. *)
Inductive result (A : Type) :=
| Ok (a : A)
| Raise (e : exn).
Arguments Ok {A} a.
Arguments Raise {A} e.

#[global] Instance result_ret : MRet result := λ A a, Ok a.
#[global] Instance result_bind : MBind result := λ A B k m,
  match m with
  | Ok a => k a
  | Raise e => Raise e
  end.

(** [seq[i]] on a Python sequence, by position. *)
Definition getitem {A} (l : list A) (i : nat) : result A :=
  match l !! i with
  | Some a => Ok a
  | None => Raise IndexError
  end.

(** [str(n)] for a Python [int]. *)
Definition str_of_int (z : Z) : pystr :=
  py (NilZero.string_of_int (Z.to_int z)).

(** ** Numbers *)

(** What a Python number is worth.  [int], [float] and [Decimal] compare
    by their exact values; a NaN equals nothing, itself included. *)
Inductive number :=
| NaN
| Infinity (negative : bool)
| Finite (q : Q).

(** [a == b] on the values of two numbers. *)
Definition number_eqb (a b : number) : bool :=
  match a, b with
  | Finite p, Finite q => Qeq_bool p q
  | Infinity s, Infinity t => bool_decide (s = t)
  | _, _ => false
  end.

(** Python's [float] (numpy's [float64] is a subclass of it): the
    floating-point numbers with what the script and its libraries do with
    them; none of this is code of the script. *)
Class PyFloat := {
  float : Type;
  float_eq_dec :: EqDecision float;
  (** the exact value *)
  float_value : float → number;
  (** numpy's cast of an [int64] to [float64] *)
  float_of_int : Z → float;
  (** [str(x)] *)
  float_str : float → pystr;
}.

(** The values of a NUMERIC column, which come back as [Decimal], with
    the conversions of psycopg2 and PostgreSQL that the script relies on;
    none of them is code of the script. *)
Class PgNumeric `{PyFloat} := {
  numeric : Type;
  numeric_eq_dec :: EqDecision numeric;
  (** the exact value of the [Decimal] read back *)
  numeric_value : numeric → number;
  (** a Python [int] passed as a query parameter; NUMERIC holds every
      integer exactly *)
  numeric_of_int : Z → numeric;
  numeric_of_int_value z :
    numeric_value (numeric_of_int z) = Finite (inject_Z z);
  (** a [float] passed as a query parameter: psycopg2 writes its [repr]
      (or 'NaN'::float, 'Infinity'::float) and PostgreSQL reads that as
      NUMERIC; [None] when the server refuses the value *)
  numeric_of_float : float → option numeric;
  (** PostgreSQL's input function for NUMERIC on a quoted literal;
      [None] is "invalid input syntax" *)
  numeric_in : pystr → option numeric;
  (** PostgreSQL's assignment cast of a NUMERIC to TEXT *)
  numeric_text : numeric → pystr;
  (** what a TEXT column holds for a [float] parameter *)
  float_text : float → pystr;
  (** Python's [str] on the value read back *)
  numeric_str : numeric → pystr;
}.

(** ** FPDF *)

(** The drawing calls an [FPDF] object has received, oldest first. *)
Inductive pdf_op :=
| AddPage
| SetFont (family : pystr) (size : Q)
| Cell (w h : Q) (txt : pystr) (border : Z)
| Ln (h : Q).

(** An [FPDF] object: the font size in points and the calls so far. *)
Record FPDF := {
  font_size_pt : Q;
  doc : list pdf_op;
}.

(** The text a call puts on a page. *)
Definition op_text (op : pdf_op) : pystr :=
  match op with
  | Cell _ _ txt _ => txt
  | _ => []
  end.

(** The text of a whole document, in drawing order. *)
Definition doc_text (ops : list pdf_op) : pystr := ops ≫= op_text.

(** A code point that the [latin1] codec can encode. *)
Definition latin1 (c : N) : Prop := (c < 256)%N.

#[global] Instance latin1_dec c : Decision (latin1 c).
Proof. unfold latin1. apply _. Defined.

(** What the script uses of the FPDF library besides recording calls: the
    page geometry (the scale factor [k] from points to the user unit and
    the printable width [epw]) and the serialisation of a document into
    the [bytearray] that [output] returns. *)
Class FpdfLib := {
  fpdf_k : Q;
  fpdf_epw : Q;
  fpdf_output : list pdf_op → list Byte.byte;
}.

Section App.
Context `{PgNumeric} `{FpdfLib}.

(** A value of the script: a cell of a frame, a query parameter or a
    fetched value. *)
Inductive cell :=
| CStr (s : pystr)        (* str *)
| CInt (z : Z)            (* int *)
| CInt64 (z : Z)          (* numpy.int64 *)
| CFloat (x : float)      (* float, numpy.float64 *)
| CNum (d : numeric).     (* decimal.Decimal *)

#[global] Instance cell_eq_dec : EqDecision cell.
Proof. solve_decision. Defined.

(** [str(item)] *)
Definition str (c : cell) : pystr :=
  match c with
  | CStr s => s
  | CInt z | CInt64 z => str_of_int z
  | CFloat x => float_str x
  | CNum d => numeric_str d
  end.

(** The value of a cell that is a number. *)
Definition value (c : cell) : option number :=
  match c with
  | CStr _ => None
  | CInt z | CInt64 z => Some (Finite (inject_Z z))
  | CFloat x => Some (float_value x)
  | CNum d => Some (numeric_value d)
  end.

(** Python's [a == b] on cells: text equals text code point by code point,
    numbers of any type compare by their exact values, text never equals
    a number. *)
Definition py_eq (a b : cell) : bool :=
  match a, b with
  | CStr s, CStr t => bool_decide (s = t)
  | _, _ =>
      match value a, value b with
      | Some x, Some y => number_eqb x y
      | _, _ => false
      end
  end.

(** ** pandas frames *)

(** A [pd.DataFrame]: the column labels and the rows in index order.  The
    index labels are left out, the script never reads them. *)
Record DataFrame := {
  columns : list pystr;
  rows : list (list cell);
}.

(** pandas keeps every row as long as the column list. *)
Definition rectangular (df : DataFrame) : Prop :=
  Forall (λ r, length r = length (columns df)) (rows df).

(** The dtypes of the columns [pd.read_csv] and [pd.DataFrame] build from
    text, integers, floats and decimals. *)
Inductive dtype := int64 | float64 | object.

Definition is_int (c : cell) : bool :=
  match c with
  | CInt _ => true
  | _ => false
  end.

Definition is_number (c : cell) : bool :=
  match c with
  | CInt _ | CFloat _ => true
  | _ => false
  end.

(** The dtype of [df.values], the one array that holds all the cells: a
    column of integers is [int64] and a column of floats [float64]; the
    array is [int64] when every column is, [float64] when every column is
    one of the two, and [object] as soon as a column holds anything
    else. *)
Definition values_dtype (df : DataFrame) : dtype :=
  if forallb is_int (concat (rows df)) then int64
  else if forallb is_number (concat (rows df)) then float64
  else object.

(** A cell as an element of an array of the given dtype: an [int64] array
    holds numpy integers, a [float64] array floats, also for the cells
    that were integers; an [object] array holds the Python objects. *)
Definition astype (t : dtype) (c : cell) : cell :=
  match t, c with
  | int64, CInt z => CInt64 z
  | float64, CInt z => CFloat (float_of_int z)
  | _, _ => c
  end.

(** [df.iterrows()], without the index labels: every row is handed over
    as a Series over its line of [df.values]. *)
Definition iterrows (df : DataFrame) : list (list cell) :=
  (λ row : list cell, astype (values_dtype df) <$> row) <$> rows df.

(** A row of a [RealDictCursor]: the column names with their values, in
    the order of the SELECT list. *)
Abbreviation dict_row := (list (pystr * cell)).

(** [pd.DataFrame(data)] for the rows of one query: the keys of the first
    row name the columns; no row, no column. *)
Definition pd_DataFrame (data : list dict_row) : DataFrame :=
  {| columns := match data with
                | [] => []
                | d :: _ => d.*1
                end;
     rows := (λ d : dict_row, d.*2) <$> data |}.

(** An uploaded file, known by what [pd.read_csv] makes of it. *)
Definition UploadedFile := result DataFrame.

Definition pd_read_csv (file : UploadedFile) : result DataFrame := file.

(** ** The store *)

(** A row of the table [dados]
    (id SERIAL PRIMARY KEY, coluna1 TEXT, coluna2 TEXT, valor NUMERIC). *)
Record record := {
  r_id : Z;
  r_coluna1 : pystr;
  r_coluna2 : pystr;
  r_valor : numeric;
}.

(** The table in insertion order; [None] when the relation does not
    exist. *)
Abbreviation table := (option (list record)).

(** The statements of the script. *)
Inductive sql :=
| CREATE_TABLE_IF_NOT_EXISTS_dados
| DELETE_FROM_dados
| INSERT_INTO_dados (p0 p1 p2 : cell)
| SELECT_ALL_FROM_dados.

(** An open psycopg2 connection: the table as its transaction sees it and
    the rows of the last query of its cursor. *)
Record connection := {
  pending : table;
  fetched : option (list dict_row);
}.

(** ** Streamlit *)

(** [st.session_state]: a key is absent until it is assigned. *)
Record session_state := {
  logged_in : option bool;
  user : option pystr;
}.

(** What one script run has called and shown, oldest first.  The log is
    not a variable of the script: it records which functions ran. *)
Inductive event :=
| Call (function : string)
| Show (widget : string).

(** ** The world of one run *)

Record world := {
  pg_up : bool;                       (* the server accepts connections *)
  pg_committed : table;               (* what a new connection sees *)
  pg_seq : Z;                         (* next value of the id sequence *)
  pg_conns : gmap nat connection;     (* the open connections *)
  st_session : session_state;
  log : list event;
}.

Definition set_committed (t : table) (w : world) : world :=
  {| pg_up := pg_up w; pg_committed := t; pg_seq := pg_seq w;
     pg_conns := pg_conns w; st_session := st_session w; log := log w |}.

Definition set_seq (n : Z) (w : world) : world :=
  {| pg_up := pg_up w; pg_committed := pg_committed w; pg_seq := n;
     pg_conns := pg_conns w; st_session := st_session w; log := log w |}.

Definition set_conns (m : gmap nat connection) (w : world) : world :=
  {| pg_up := pg_up w; pg_committed := pg_committed w; pg_seq := pg_seq w;
     pg_conns := m; st_session := st_session w; log := log w |}.

Definition set_session (s : session_state) (w : world) : world :=
  {| pg_up := pg_up w; pg_committed := pg_committed w; pg_seq := pg_seq w;
     pg_conns := pg_conns w; st_session := s; log := log w |}.

Definition set_log (l : list event) (w : world) : world :=
  {| pg_up := pg_up w; pg_committed := pg_committed w; pg_seq := pg_seq w;
     pg_conns := pg_conns w; st_session := st_session w; log := l |}.

(** A statement of the script: it changes the world and returns a value
    or raises; a raised exception leaves the world as it was at that
    point and skips the rest. *)
Definition M (A : Type) : Type := world → result A * world.

#[global] Instance M_ret : MRet M := λ A a w, (Ok a, w).
#[global] Instance M_bind : MBind M := λ A B k m w,
  match m w with
  | (Ok a, w') => k a w'
  | (Raise e, w') => (Raise e, w')
  end.

Definition raise {A} (e : exn) : M A := λ w, (Raise e, w).

(** A pure computation as a statement. *)
Definition lift {A} (r : result A) : M A := λ w, (r, w).

(** [for x in l: body] *)
Fixpoint for_each {A} (l : list A) (body : A → M unit) : M unit :=
  match l with
  | [] => mret tt
  | x :: l' => body x ;; for_each l' body
  end.

Definition record_event (e : event) : M unit :=
  λ w, (Ok tt, set_log (log w ++ [e]) w).

(** ** psycopg2 *)

(** [psycopg2.connect(...)]: a new connection, whose transaction starts
    from the committed table. *)
Definition connect : M nat := λ w,
  if pg_up w then
    let c := fresh (dom (pg_conns w)) in
    (Ok c,
     set_conns (<[c := {| pending := pg_committed w; fetched := None |}]>
                  (pg_conns w)) w)
  else (Raise OperationalError, w).

(** [conn.cursor()]: the cursor works on its connection. *)
Definition cursor (conn : nat) : M nat := mret conn.

(** psycopg2 can write the parameter in SQL: it has an adapter for
    [str], [int], [float] (and its subclasses) and [Decimal], none for a
    numpy integer. *)
Definition adaptable (p : cell) : bool :=
  match p with
  | CInt64 _ => false
  | _ => true
  end.

(** A query parameter stored in a TEXT column. *)
Definition to_text (p : cell) : pystr :=
  match p with
  | CStr s => s
  | CInt z | CInt64 z => str_of_int z
  | CFloat x => float_text x
  | CNum d => numeric_text d
  end.

(** A query parameter stored in a NUMERIC column. *)
Definition to_numeric (p : cell) : option numeric :=
  match p with
  | CStr s => numeric_in s
  | CInt z | CInt64 z => Some (numeric_of_int z)
  | CFloat x => numeric_of_float x
  | CNum d => Some d
  end.

(** The row [SELECT *] returns for a record. *)
Definition dict_of_record (r : record) : dict_row :=
  [ (py "id", CInt (r_id r));
    (py "coluna1", CStr (r_coluna1 r));
    (py "coluna2", CStr (r_coluna2 r));
    (py "valor", CNum (r_valor r)) ].

(** The parameters of a statement. *)
Definition params (stmt : sql) : list cell :=
  match stmt with
  | INSERT_INTO_dados p0 p1 p2 => [p0; p1; p2]
  | _ => []
  end.

(** [cur.execute(stmt, params)]: psycopg2 writes the parameters into the
    statement, which raises when one of them cannot be adapted, and sends
    it to the server. *)
Definition execute (cur : nat) (stmt : sql) : M unit := λ w,
  match pg_conns w !! cur with
  | None => (Raise InterfaceError, w)
  | Some c =>
    let put (t : table) (f : option (list dict_row)) (w : world) :=
      set_conns (<[cur := {| pending := t; fetched := f |}]> (pg_conns w)) w in
    if negb (forallb adaptable (params stmt)) then (Raise ProgrammingError, w)
    else
    match stmt, pending c with
    | CREATE_TABLE_IF_NOT_EXISTS_dados, None =>
        (Ok tt, set_seq 1 (put (Some []) (fetched c) w))
    | CREATE_TABLE_IF_NOT_EXISTS_dados, Some _ => (Ok tt, w)
    | _, None => (Raise UndefinedTable, w)
    | DELETE_FROM_dados, Some _ => (Ok tt, put (Some []) (fetched c) w)
    | INSERT_INTO_dados p0 p1 p2, Some rs =>
        match to_numeric p2 with
        | None => (Raise DataError, w)
        | Some v =>
          let r := {| r_id := pg_seq w; r_coluna1 := to_text p0;
                      r_coluna2 := to_text p1; r_valor := v |} in
          (Ok tt, set_seq (pg_seq w + 1) (put (Some (rs ++ [r])) (fetched c) w))
        end
    | SELECT_ALL_FROM_dados, Some rs =>
        (Ok tt, put (Some rs) (Some (dict_of_record <$> rs)) w)
    end
  end.

(** [cur.fetchall()] *)
Definition fetchall (cur : nat) : M (list dict_row) := λ w,
  match pg_conns w !! cur with
  | None => (Raise InterfaceError, w)
  | Some c =>
    match fetched c with
    | None => (Raise ProgrammingError, w)
    | Some data => (Ok data, w)
    end
  end.

(** [conn.commit()]: the transaction's view becomes the committed table. *)
Definition commit (conn : nat) : M unit := λ w,
  match pg_conns w !! conn with
  | None => (Raise InterfaceError, w)
  | Some c => (Ok tt, set_committed (pending c) w)
  end.

(** [cur.close()] *)
Definition cursor_close (cur : nat) : M unit := mret tt.

(** [conn.close()]: the connection is released; what it did not commit
    is lost. *)
Definition close (conn : nat) : M unit := λ w,
  (Ok tt, set_conns (delete conn (pg_conns w)) w).

(** ** The script: connection, ingestion, query *)

Definition get_connection : M nat := connect.

Definition load_csv_to_postgres (file : UploadedFile) : M unit :=
  record_event (Call "load_csv_to_postgres") ;;
  df ← lift (pd_read_csv file);
  conn ← get_connection;
  cur ← cursor conn;
  execute cur CREATE_TABLE_IF_NOT_EXISTS_dados ;;
  commit conn ;;
  execute cur DELETE_FROM_dados ;;
  commit conn ;;
  for_each (iterrows df) (λ row,
    p0 ← lift (getitem row 0);
    p1 ← lift (getitem row 1);
    p2 ← lift (getitem row 2);
    execute cur (INSERT_INTO_dados p0 p1 p2)) ;;
  commit conn ;;
  cursor_close cur ;;
  close conn.

Definition get_data : M DataFrame :=
  record_event (Call "get_data") ;;
  conn ← get_connection;
  cur ← cursor conn;
  execute cur SELECT_ALL_FROM_dados ;;
  data ← fetchall cur;
  cursor_close cur ;;
  close conn ;;
  mret (pd_DataFrame data).

(** ** Streamlit calls *)

(** One script run reads the widgets once; these are their values. *)
Record widgets := {
  usuario : pystr;                 (* st.text_input("Usuário") *)
  senha : pystr;                   (* st.text_input("Senha") *)
  entrar : bool;                   (* st.button("Entrar") *)
  upload : option UploadedFile;    (* st.sidebar.file_uploader(...) *)
  sel_coluna1 : nat;               (* position chosen in the first selectbox *)
  sel_coluna2 : nat;               (* position chosen in the second selectbox *)
}.

(** A call that only draws. *)
Definition show (widget : string) : M unit := record_event (Show widget).

Definition session : M session_state := λ w, (Ok (st_session w), w).

Definition assign_logged_in (b : bool) : M unit := λ w,
  (Ok tt, set_session {| logged_in := Some b; user := user (st_session w) |} w).

Definition assign_user (u : pystr) : M unit := λ w,
  (Ok tt, set_session {| logged_in := logged_in (st_session w); user := Some u |} w).

Definition st_stop {A} : M A := raise StopException.

Definition st_experimental_rerun {A} : M A := raise RerunException.

(** [st.selectbox(label, options)]: the option at the chosen position, the
    first option when nothing (or nothing valid) is chosen. *)
Definition selectbox (first : cell) (others : list cell) (choice : nat) : cell :=
  default first ((first :: others) !! choice).

(** ** pandas calls of the script *)

(** [df[name]]: the cells of a column, top to bottom. *)
Definition column (df : DataFrame) (name : pystr) : result (list cell) :=
  match list_find (λ c, c = name) (columns df) with
  | None => Raise KeyError
  | Some (j, _) => mapM (λ r, getitem r j) (rows df)
  end.

(** [series == value] *)
Definition series_eq (s : list cell) (value : cell) : list bool :=
  (λ c, py_eq c value) <$> s.

(** [df[mask]]: the rows whose mask entry is true, in order. *)
Definition boolean_index (df : DataFrame) (mask : list bool) : DataFrame :=
  {| columns := columns df;
     rows := (filter (λ p, p.2 = true) (zip (rows df) mask)).*1 |}.

(** [series.unique()]: the values in order of first appearance. *)
Fixpoint unique (s : list cell) : list cell :=
  match s with
  | [] => []
  | c :: s' => c :: filter (λ d, d ≠ c) (unique s')
  end.

(** ** The script: authentication and roles *)

Section Configured.

(** [users = json.loads(USERS_JSON)], read from the environment. *)
Variable users : gmap pystr pystr.

(** [to_excel]: the spreadsheet writer is the library's. *)
Variable to_excel : DataFrame → result (list Byte.byte).

Definition login (i : widgets) : M unit :=
  ss ← session;
  (match logged_in ss with
   | None => assign_logged_in false
   | Some _ => mret tt
   end) ;;
  ss ← session;
  if default false (logged_in ss) then mret tt
  else
    show "title: Login" ;;
    let username := usuario i in
    let password := senha i in
    (if entrar i then
       if bool_decide (users !! username = Some password) then
         assign_logged_in true ;;
         assign_user username ;;
         st_experimental_rerun
       else show "error: Usuário ou senha incorretos"
     else mret tt) ;;
    st_stop.

Definition role_map : gmap pystr pystr :=
  {[ py "admin" := py "admin";
     py "analyst" := py "analyst";
     py "reader" := py "reader" ]}.

Definition check_role : M pystr :=
  ss ← session;
  match user ss with
  | None => raise AttributeError
  | Some u => mret (default (py "reader") (role_map !! u))
  end.

(** ** The script: filter *)

Definition Todos : cell := CStr (py "Todos").

(** Lines 180-184 of the script: the filtered view [df_filtrado]. *)
Definition df_filtrado (data : DataFrame)
    (filtro_coluna1 filtro_coluna2 : cell) : result DataFrame :=
  let df := data in
  df ← (if negb (py_eq filtro_coluna1 Todos) then
          s ← column df (py "coluna1");
          mret (boolean_index df (series_eq s filtro_coluna1))
        else mret df);
  if negb (py_eq filtro_coluna2 Todos) then
    s ← column df (py "coluna2");
    mret (boolean_index df (series_eq s filtro_coluna2))
  else mret df.

(** ** The script: PDF export *)

(** [FPDF()] *)
Definition FPDF_new : FPDF := {| font_size_pt := 12; doc := [] |}.

Definition add_page (pdf : FPDF) : FPDF :=
  {| font_size_pt := font_size_pt pdf; doc := doc pdf ++ [AddPage] |}.

Definition set_font (pdf : FPDF) (family : pystr) (size : Q) : FPDF :=
  {| font_size_pt := size; doc := doc pdf ++ [SetFont family size] |}.

(** [pdf.font_size]: the font size in the user unit. *)
Definition font_size (pdf : FPDF) : Q := (font_size_pt pdf / fpdf_k)%Q.

(** [pdf.epw] *)
Definition epw (pdf : FPDF) : Q := fpdf_epw.

(** [pdf.cell(w, h, txt, border)]: the fonts built into the library, of
    which Arial is one, are Latin-1 fonts, and a text with any other
    character is refused. *)
Definition pdf_cell (pdf : FPDF) (w h : Q) (txt : pystr) (border : Z)
    : result FPDF :=
  if decide (Forall latin1 txt) then
    Ok {| font_size_pt := font_size_pt pdf;
          doc := doc pdf ++ [Cell w h txt border] |}
  else Raise FPDFUnicodeEncodingException.

Definition ln (pdf : FPDF) (h : Q) : FPDF :=
  {| font_size_pt := font_size_pt pdf; doc := doc pdf ++ [Ln h] |}.

(** [pdf.output(dest='S')]: the document as a [bytearray]. *)
Definition output (pdf : FPDF) : list Byte.byte := fpdf_output (doc pdf).

(** [a / n] for a float and the length of a list. *)
Definition truediv (a : Q) (n : nat) : result Q :=
  match n with
  | O => Raise ZeroDivisionError
  | S _ => Ok (a / inject_Z (Z.of_nat n))%Q
  end.

(** [b.encode('latin1')] on a [bytearray]: it has no such attribute,
    [encode] is a method of [str]. *)
Definition bytearray_encode (b : list Byte.byte) : result (list Byte.byte) :=
  Raise AttributeError.

(** [for x in l: pdf = body(pdf, x)], for a body that can raise. *)
Fixpoint for_pdf {A} (l : list A) (body : FPDF → A → result FPDF)
    (pdf : FPDF) : result FPDF :=
  match l with
  | [] => Ok pdf
  | x :: l' => pdf ← body pdf x; for_pdf l' body pdf
  end.

Definition to_pdf (df : DataFrame) : result (list Byte.byte) :=
  let pdf := add_page FPDF_new in
  let pdf := set_font pdf (py "Arial") 12 in
  let line_height := (font_size pdf * 2)%Q in
  col_width ← truediv (epw pdf) (length (columns df));
  pdf ← for_pdf (columns df)
          (λ pdf col, pdf_cell pdf col_width line_height col 1) pdf;
  let pdf := ln pdf line_height in
  pdf ← for_pdf (iterrows df)
          (λ pdf row,
             pdf ← for_pdf row
                     (λ pdf item,
                        pdf_cell pdf col_width line_height (str item) 1) pdf;
             Ok (ln pdf line_height)) pdf;
  bytearray_encode (output pdf).

(** ** The script: main *)

Definition main (i : widgets) : M unit :=
  show "set_page_config" ;;
  show "sidebar.title: Menu" ;;
  show "sidebar.markdown: Navegação" ;;
  login i ;;
  role ← check_role;
  (if bool_decide (role = py "reader") then
     show "sidebar.info: Modo leitura. Permissões restritas."
   else if bool_decide (role = py "analyst") then
     show "sidebar.info: Modo analista. Pode filtrar e exportar."
   else
     show "sidebar.info: Modo administrador. Controle total.") ;;
  (if bool_decide (role = py "admin") then
     let file := upload i in
     match file with
     | Some file =>
         load_csv_to_postgres file ;;
         show "success: Dados importados com sucesso!"
     | None => mret tt
     end
   else mret tt) ;;
  data ← get_data;
  show "title: Dashboard Interativo" ;;
  coluna1 ← lift (column data (py "coluna1"));
  let filtro_coluna1 := selectbox Todos (unique coluna1) (sel_coluna1 i) in
  coluna2 ← lift (column data (py "coluna2"));
  let filtro_coluna2 := selectbox Todos (unique coluna2) (sel_coluna2 i) in
  df ← lift (df_filtrado data filtro_coluna1 filtro_coluna2);
  show "AgGrid" ;;
  show "plotly_chart" ;;
  show "markdown: Exportar dados" ;;
  record_event (Call "to_excel") ;;
  excel_data ← lift (to_excel df);
  show "download_button: Exportar Excel" ;;
  record_event (Call "to_pdf") ;;
  pdf_data ← lift (to_pdf df);
  show "download_button: Exportar PDF".

End Configured.

End App.

(** ** The script: e-mail

    [send_email] is not called by [main]; it is embedded on its own.  The
    SMTP server and [smtplib] are seen through the calls the script makes:
    every call is recorded, and what the server answers to it, given the
    calls before, is a parameter.  [int] on a string is Python's, a
    parameter too. *)

(** The exceptions of [send_email]. *)
Inductive mail_exn :=
| ValueError                          (* int(): no integer literal *)
| SMTPException (code : nat).         (* any error of smtplib *)

(** The outcome of a statement of [send_email]. *)
Inductive mail_result (A : Type) :=
| Sent (a : A)
| Failed (e : mail_exn).
Arguments Sent {A} a.
Arguments Failed {A} e.

(** The content of a MIME part. *)
Inductive mime_content :=
| MIMEText (text : pystr) (subtype : pystr)
| MIMEApplication (data : list Byte.byte) (Name : pystr).

(** A MIME part: its content and the headers assigned to it. *)
Record mime_part := {
  content : mime_content;
  part_headers : list (pystr * pystr);
}.

(** A [MIMEMultipart] message: the headers assigned to it, where the
    value is [None] when the script assigns Python's [None], and the parts
    attached to it, both in the order of the assignments. *)
Record message := {
  msg_headers : list (pystr * option pystr);
  msg_parts : list mime_part;
}.

(** The calls on [smtplib] that [send_email] makes. *)
Inductive smtp_call :=
| SMTP (host : option pystr) (port : Z)     (* smtplib.SMTP(host, port) *)
| starttls
| smtp_login (user password : option pystr)
| send_message (msg : message)
| smtp_exit.                                (* leaving the with block *)

(** The environment variables [send_email] reads. *)
Record environ := {
  SMTP_SERVER : option pystr;
  SMTP_PORT : option pystr;
  SMTP_USER : option pystr;
  SMTP_PASSWORD : option pystr;
}.

(** The mail side of the world: the number of SMTP sessions that are
    open and the calls made so far, oldest first. *)
Record mailbox := {
  sessions : nat;
  calls : list smtp_call;
}.

Section Mail.

(** [int(s)] for a string. *)
Variable int_of_str : pystr → option Z.

(** What [smtplib] answers to a call, given the calls before it: [None]
    when the call returns, the exception otherwise. *)
Variable reply : list smtp_call → smtp_call → option mail_exn.

Definition Mail (A : Type) : Type := mailbox → mail_result A * mailbox.

#[global] Instance Mail_ret : MRet Mail := λ A a m, (Sent a, m).
#[global] Instance Mail_bind : MBind Mail := λ A B k c m,
  match c m with
  | (Sent a, m') => k a m'
  | (Failed e, m') => (Failed e, m')
  end.

(** A call on the library: it is recorded, then it returns or raises. *)
Definition call (c : smtp_call) : Mail unit := λ m,
  (match reply (calls m) c with
   | None => Sent tt
   | Some e => Failed e
   end,
   {| sessions := sessions m; calls := calls m ++ [c] |}).

(** [smtplib.SMTP(host, port)]: when the constructor returns, a session
    is open. *)
Definition SMTP_new (host : option pystr) (port : Z) : Mail unit := λ m,
  match reply (calls m) (SMTP host port) with
  | None => (Sent tt, {| sessions := S (sessions m);
                         calls := calls m ++ [SMTP host port] |})
  | Some e => (Failed e, {| sessions := sessions m;
                            calls := calls m ++ [SMTP host port] |})
  end.

(** [SMTP.__exit__]: QUIT is sent and the session is closed whatever the
    answer; an exception of QUIT is raised. *)
Definition SMTP_exit : Mail unit := λ m,
  (match reply (calls m) smtp_exit with
   | None => Sent tt
   | Some e => Failed e
   end,
   {| sessions := pred (sessions m); calls := calls m ++ [smtp_exit] |}).

(** Leaving a with block: [__exit__] runs however the body ends, and its
    exception, if any, replaces the outcome of the body. *)
Definition leaving (body : Mail unit) : Mail unit := λ m,
  let (r, m1) := body m in
  match SMTP_exit m1 with
  | (Sent _, m2) => (r, m2)
  | (Failed e, m2) => (Failed e, m2)
  end.

(** [with smtplib.SMTP(host, port) as server: body]: the body runs when
    the constructor has returned. *)
Definition with_SMTP (host : option pystr) (port : Z) (body : Mail unit)
    : Mail unit :=
  SMTP_new host port ;; leaving body.

(** [int(os.getenv("SMTP_PORT", 587))] *)
Definition smtp_port_of (env : environ) : Mail Z := λ m,
  (match SMTP_PORT env with
   | None => Sent 587
   | Some s =>
     match int_of_str s with
     | Some port => Sent port
     | None => Failed ValueError
     end
   end, m).

(** The message [send_email] builds. *)
Definition build_message (env : environ) (to_email subject body : pystr)
    (attachment_bytes : list Byte.byte) (filename : pystr) : message :=
  let smtp_user := SMTP_USER env in
  let part :=
    {| content := MIMEApplication attachment_bytes filename;
       part_headers :=
         [(py "Content-Disposition",
           py "attachment; filename=" ++ [34%N] ++ filename ++ [34%N])] |} in
  {| msg_headers := [(py "From", smtp_user);
                     (py "To", Some to_email);
                     (py "Subject", Some subject)];
     msg_parts := [{| content := MIMEText body (py "plain");
                      part_headers := [] |};
                   part] |}.

Definition send_email (env : environ) (to_email subject body : pystr)
    (attachment_bytes : list Byte.byte) (filename : pystr) : Mail unit :=
  let smtp_server := SMTP_SERVER env in
  smtp_port ← smtp_port_of env;
  let smtp_user := SMTP_USER env in
  let smtp_pass := SMTP_PASSWORD env in
  let msg := build_message env to_email subject body attachment_bytes filename in
  with_SMTP smtp_server smtp_port (
    call starttls ;;
    call (smtp_login smtp_user smtp_pass) ;;
    call (send_message msg)).

End Mail.

(** ** Vocabulary of the properties *)

Section Vocabulary.
Context `{PgNumeric} `{FpdfLib}.

(** A result that is a value. *)
Definition succeeds {A} (r : result A) : Prop := ∃ a, r = Ok a.

(** The body of the loop of [load_csv_to_postgres]. *)
Definition insert_row (cur : nat) (row : list cell) : M unit :=
  p0 ← lift (getitem row 0);
  p1 ← lift (getitem row 1);
  p2 ← lift (getitem row 2);
  execute cur (INSERT_INTO_dados p0 p1 p2).

(** What the INSERT of the loop stores for a row of the frame, the id
    apart, or the exception it raises. *)
Definition stored (row : list cell) : result (pystr * pystr * numeric) :=
  p0 ← getitem row 0;
  p1 ← getitem row 1;
  p2 ← getitem row 2;
  if forallb adaptable [p0; p1; p2] then
    match to_numeric p2 with
    | Some v => Ok (to_text p0, to_text p1, v)
    | None => Raise DataError
    end
  else Raise ProgrammingError.

(** Records for the given contents, with consecutive ids from [n]. *)
Fixpoint numbered (n : Z) (ds : list (pystr * pystr * numeric)) : list record :=
  match ds with
  | [] => []
  | d :: ds' =>
      {| r_id := n; r_coluna1 := d.1.1; r_coluna2 := d.1.2; r_valor := d.2 |}
      :: numbered (n + 1) ds'
  end.

(** The contents of a record, the id apart. *)
Definition contents (r : record) : pystr * pystr * numeric :=
  (r_coluna1 r, r_coluna2 r, r_valor r).

(** The first id a load hands out: CREATE TABLE starts the sequence at 1,
    an existing table keeps its sequence. *)
Definition first_id (w : world) : Z :=
  match pg_committed w with
  | None => 1
  | Some _ => pg_seq w
  end.

(** The world in which connection [c] sees the rows [rs] and the sequence
    stands at [n]. *)
Definition with_rows (c : nat) (rs : list record)
    (f : option (list (list (pystr * cell)))) (n : Z) (w : world) : world :=
  {| pg_up := pg_up w; pg_committed := pg_committed w; pg_seq := n;
     pg_conns := <[c := {| pending := Some rs; fetched := f |}]> (pg_conns w);
     st_session := st_session w; log := log w |}.

(** The cells [get_data] returns for a record. *)
Definition cells_of_record (r : record) : list cell :=
  [CInt (r_id r); CStr (r_coluna1 r); CStr (r_coluna2 r); CNum (r_valor r)].

(** The column names [get_data] returns for a table that is not empty. *)
Definition fetched_columns : list pystr :=
  [py "id"; py "coluna1"; py "coluna2"; py "valor"].

(** Python's [a == b] holds. *)
Definition py_equal (a b : cell) : Prop := py_eq a b = true.



(** The position of a column in a frame. *)
Definition column_at (df : DataFrame) (name : pystr) (j : nat) : Prop :=
  list_find (λ c, c = name) (columns df) = Some (j, name).

(** The cell at position [j] of the row equals the value, by [==]. *)
Definition cell_matches (j : nat) (value : cell) (row : list cell) : bool :=
  match row !! j with
  | Some c => py_eq c value
  | None => false
  end.

(** The filter value on the column at position [j] lets the row pass:
    it is "Todos", or the cell of the row equals it. *)
Definition keeps (j : nat) (filtro : cell) (row : list cell) : bool :=
  py_eq filtro Todos || cell_matches j filtro row.

(** The texts [to_pdf] draws for a frame: the column names, then the
    [str] of every cell, row by row. *)
Definition frame_texts (df : DataFrame) : list pystr :=
  columns df ++ (str <$> concat (iterrows df)).

(** The entry that a call of [load_csv_to_postgres] leaves in the log. *)
Definition ingest_call : event := Call "load_csv_to_postgres".

(** The session is the one of identity [u]. *)
Definition session_of_user (u : pystr) (w : world) : Prop :=
  user (st_session w) = Some u.

(** Run from a world that satisfies [I], the statement [m] does not call
    the ingestion and leaves the committed table as it is; when it
    returns, [I] holds again and the value satisfies [Q]. *)
Definition quiet (I : world → Prop) {A} (m : M A) (Q : A → Prop) : Prop :=
  ∀ w, I w →
    (∃ evs, log (m w).2 = log w ++ evs ∧ ingest_call ∉ evs) ∧
    pg_committed (m w).2 = pg_committed w ∧
    ∀ a, (m w).1 = Ok a → I (m w).2 ∧ Q a.

(** The statement [m] touches neither the log, nor the committed table,
    nor the session. *)
Definition silent {A} (m : M A) : Prop :=
  ∀ w, log (m w).2 = log w ∧
       pg_committed (m w).2 = pg_committed w ∧
       st_session (m w).2 = st_session w.

(** The role [check_role] gives to identity [u]. *)
Definition role_of (u : pystr) : pystr := default (py "reader") (role_map !! u).

(** Lines 153 and 154 of [main], the authorisation of a run: the
    identity is authenticated by [login] and then given its role by
    [check_role]. *)
Definition authorize (users : gmap pystr pystr) (i : widgets) : M pystr :=
  login users i ;; check_role.

(** The credentials typed in a run are an entry of [users] and the button
    is pressed. *)
Definition known (users : gmap pystr pystr) (i : widgets) : Prop :=
  entrar i = true ∧ users !! usuario i = Some (senha i).

(** The statement leaves the session as it is, also when it raises. *)
Definition keeps_session {A} (m : M A) : Prop :=
  ∀ w, st_session (m w).2 = st_session w.

(** The script runs again at every interaction: the world after the runs
    for the given widget values, one run after the other. *)
Definition run_all (users : gmap pystr pystr)
    (to_excel : DataFrame → result (list Byte.byte))
    (inputs : list widgets) (w : world) : world :=
  foldl (λ w i, (main users to_excel i w).2) w inputs.

(** The widgets of a run hold the name admin, the password [users] has
    for it, and the button is pressed. *)
Definition admin_sign_in (users : gmap pystr pystr) (i : widgets) : Prop :=
  entrar i = true ∧ usuario i = py "admin" ∧
  users !! py "admin" = Some (senha i).

(** A session that is logged in names an identity of [users]. *)
Definition session_ok (users : gmap pystr pystr) (s : session_state) : Prop :=
  logged_in s = Some true → ∃ u, user s = Some u ∧ is_Some (users !! u).

(** The outcome of a with block whose body ended in [r], when the exit
    of the block is answered by [x]: an exception of the exit replaces the
    outcome of the body. *)
Definition after_exit (x : option mail_exn) (r : mail_result unit)
    : mail_result unit :=
  match x with
  | Some e => Failed e
  | None => r
  end.

(** The calls of a session of [send_email], the exit apart. *)
Definition mail_script (env : environ) (port : Z) (msg : message)
    : list smtp_call :=
  [SMTP (SMTP_SERVER env) port; starttls;
   smtp_login (SMTP_USER env) (SMTP_PASSWORD env); send_message msg].

End Vocabulary.

(** ** A concrete configuration

    Whole numbers as floats and as NUMERIC values, an A4 page in
    millimetres with a serialiser that keeps only the text, the default
    identities of the script, and a few worlds and files to run the
    script on. *)
Module Demo.

Definition to_string (s : pystr) : string :=
  string_of_list_ascii (ascii_of_N <$> s).

(** The floats that have a whole value (of a magnitude that a float holds
    exactly and writes without exponent): [str] writes them with ".0". *)
#[export] Instance whole_floats : PyFloat := {|
  float := Z;
  float_value x := Finite (inject_Z x);
  float_of_int z := z;
  float_str x := str_of_int x ++ py ".0" |}.

(** The NUMERIC values that are whole: the value and whether it is
    written with one decimal, as the value of a float parameter is. *)
#[export] Instance whole_numbers : PgNumeric := {|
  numeric := Z * bool;
  numeric_value d := Finite (inject_Z d.1);
  numeric_of_int z := (z, false);
  numeric_of_int_value z := eq_refl;
  numeric_of_float x := Some (x, true);
  numeric_in s := (λ z, (Z.of_int z, false)) <$> NilZero.int_of_string (to_string s);
  numeric_text d := str_of_int d.1 ++ (if d.2 then py ".0" else []);
  float_text x := str_of_int x ++ py ".0";
  numeric_str d := str_of_int d.1 ++ (if d.2 then py ".0" else []) |}.

(** A serialiser that keeps only the text. *)
Definition serialise (ops : list pdf_op) : list Byte.byte :=
  omap Byte.of_N (py "%PDF-1.3 " ++ doc_text ops ++ py " %%EOF").

#[export] Instance a4_mm : FpdfLib := {|
  fpdf_k := 360 # 127;
  fpdf_epw := 75999 # 400;
  fpdf_output := serialise |}.

#[local] Open Scope string_scope.

(** The default of [USERS_JSON]. *)
Definition users : gmap pystr pystr :=
  {[ py "admin" := py "admin_pass";
     py "analyst" := py "analyst_pass";
     py "reader" := py "reader_pass" ]}.

(** A deployment whose [USERS_JSON] names one more identity. *)
Definition users_with_guest : gmap pystr pystr :=
  <[ py "guest" := py "guest_pass" ]> users.

Definition to_excel (df : DataFrame) : result (list Byte.byte) := Ok [].

Definition fresh_session : session_state :=
  {| logged_in := None; user := None |}.

Definition session_of (u : string) : session_state :=
  {| logged_in := Some true; user := Some (py u) |}.

(** A server that is up, with the given table and no open connection. *)
Definition world_of (t : option (list record)) (s : session_state) : world :=
  {| pg_up := true; pg_committed := t; pg_seq := 1 + Z.of_nat (length (default [] t));
     pg_conns := ∅; st_session := s; log := [] |}.

Definition rec (i : Z) (a b : string) (v : Z) : record :=
  {| r_id := i; r_coluna1 := py a; r_coluna2 := py b;
     r_valor := numeric_of_int v |}.

Definition old_table : list record := [rec 1 "old" "o" 7].

Definition frame (header : list string) (body : list (list cell)) : DataFrame :=
  {| columns := py <$> header; rows := body |}.

Definition text (s : string) : cell := CStr (py s).

(** The file of section 8 of the description: a,x,1 / b,y,2 / a,y,3. *)
Definition csv_abc : DataFrame :=
  frame ["coluna1"; "coluna2"; "valor"]
        [ [text "a"; text "x"; CInt 1];
          [text "b"; text "y"; CInt 2];
          [text "a"; text "y"; CInt 3] ].

Definition csv_one : DataFrame :=
  frame ["coluna1"; "coluna2"; "valor"] [ [text "a"; text "x"; CInt 1] ].

(** Four columns. *)
Definition csv_wide : DataFrame :=
  frame ["c1"; "c2"; "v"; "extra"]
        [ [text "a"; text "x"; CInt 1; text "ignored"] ].


(** The same with a float in the last column: 1,2,3.0 / 4,5,6.0. *)
Definition csv_floats : DataFrame :=
  frame ["c1"; "c2"; "v"]
        [ [CInt 1; CInt 2; CFloat 3]; [CInt 4; CInt 5; CFloat 6] ].


(** The value of the second row is no number. *)
Definition csv_bad_value : DataFrame :=
  frame ["coluna1"; "coluna2"; "valor"]
        [ [text "a"; text "x"; CInt 1];
          [text "b"; text "y"; text "abc"];
          [text "c"; text "z"; CInt 3] ].

(** A cell with the euro sign, U+20AC. *)
Definition frame_euro : DataFrame :=
  {| columns := [py "id"; py "coluna1"; py "coluna2"; py "valor"];
     rows := [ [CInt 1; CStr [8364%N]; text "x"; CNum (numeric_of_int 5)] ] |}.

(** A server that cannot be reached. *)
Definition world_down (t : option (list record)) (s : session_state) : world :=
  {| pg_up := false; pg_committed := t; pg_seq := 1 + Z.of_nat (length (default [] t));
     pg_conns := ∅; st_session := s; log := [] |}.

(** [int] on decimal digits. *)
Definition int_of_str (s : pystr) : option Z :=
  Z.of_int <$> NilZero.int_of_string (to_string s).

(** An SMTP server that accepts everything, and one that refuses the
    login. *)
Definition accepts (history : list smtp_call) (c : smtp_call) : option mail_exn :=
  None.

Definition refuses_login (history : list smtp_call) (c : smtp_call)
    : option mail_exn :=
  match c with
  | smtp_login _ _ => Some (SMTPException 535)
  | _ => None
  end.

Definition mail_env : environ :=
  {| SMTP_SERVER := Some (py "smtp.example.org"); SMTP_PORT := Some (py "2525");
     SMTP_USER := Some (py "dashboard"); SMTP_PASSWORD := Some (py "secret") |}.

Definition no_mail : mailbox := {| sessions := 0; calls := [] |}.

Definition no_widget : widgets :=
  {| usuario := []; senha := []; entrar := false; upload := None;
     sel_coluna1 := 0; sel_coluna2 := 0 |}.

Definition sign_in (u p : string) : widgets :=
  {| usuario := py u; senha := py p; entrar := true; upload := None;
     sel_coluna1 := 0; sel_coluna2 := 0 |}.

Definition upload_of (df : DataFrame) : widgets :=
  {| usuario := []; senha := []; entrar := false; upload := Some (Ok df);
     sel_coluna1 := 0; sel_coluna2 := 0 |}.

End Demo.

(** ** Properties *)

Section Properties.
Context {floats : PyFloat} {numerics : PgNumeric} {fpdf : FpdfLib}.

#[local] Arguments Z.add _ _ : simpl never.
#[local] Arguments Z.of_nat _ : simpl never.
#[local] Arguments iterrows _ _ _ : simpl never.

Ltac run := unfold mbind, mret, M_bind, M_ret, lift, raise; cbn.

(** Two worlds are equal when their fields are. *)
Lemma world_ext w1 w2 :
  pg_up w1 = pg_up w2 →
  pg_committed w1 = pg_committed w2 →
  pg_seq w1 = pg_seq w2 →
  pg_conns w1 = pg_conns w2 →
  st_session w1 = st_session w2 →
  log w1 = log w2 →
  w1 = w2.
Proof. destruct w1, w2; cbn; congruence. Qed.

Ltac worlds := f_equal; apply world_ext; cbn.


(** *** The loop of the ingestion *)

Lemma insert_row_ok c row rs f d w :
  pg_conns w !! c = Some {| pending := Some rs; fetched := f |} →
  stored row = Ok d →
  insert_row c row w =
    (Ok tt, with_rows c (rs ++ numbered (pg_seq w) [d]) f (pg_seq w + 1) w).
Proof.
  intros Hc Hd. unfold insert_row, stored in *.
  destruct (getitem row 0) as [p0|] eqn:E0; [|done].
  destruct (getitem row 1) as [p1|] eqn:E1; [|done].
  destruct (getitem row 2) as [p2|] eqn:E2; [|done].
  cbn [mbind result_bind] in Hd.
  destruct (forallb adaptable [p0; p1; p2]) eqn:Ea; [|done].
  destruct (to_numeric p2) as [v|] eqn:Ev; [|done].
  injection Hd as <-.
  run. unfold execute. rewrite Hc. cbn [params]. rewrite Ea. cbn.
  rewrite Ev. done.
Qed.

Lemma insert_row_raise c row rs f e w :
  pg_conns w !! c = Some {| pending := Some rs; fetched := f |} →
  stored row = Raise e →
  insert_row c row w = (Raise e, w).
Proof.
  intros Hc Hd. unfold insert_row, stored in *.
  destruct (getitem row 0) as [p0|] eqn:E0; [|by injection Hd as <-].
  destruct (getitem row 1) as [p1|] eqn:E1; [|by injection Hd as <-].
  destruct (getitem row 2) as [p2|] eqn:E2; [|by injection Hd as <-].
  cbn [mbind result_bind] in Hd.
  destruct (forallb adaptable [p0; p1; p2]) eqn:Ea.
  - destruct (to_numeric p2) as [v|] eqn:Ev; [done|].
    injection Hd as <-.
    run. unfold execute. rewrite Hc. cbn [params]. rewrite Ea. cbn.
    by rewrite Ev.
  - injection Hd as <-.
    run. unfold execute. rewrite Hc. cbn [params]. by rewrite Ea.
Qed.

Lemma with_rows_id c rs f w :
  pg_conns w !! c = Some {| pending := Some rs; fetched := f |} →
  with_rows c rs f (pg_seq w) w = w.
Proof.
  intros Hc. destruct w. unfold with_rows. cbn in *. by rewrite insert_id.
Qed.

Lemma with_rows_twice c rs rs' f f' n n' w :
  with_rows c rs' f' n' (with_rows c rs f n w) = with_rows c rs' f' n' w.
Proof. unfold with_rows. cbn. by rewrite insert_insert_eq. Qed.

Lemma insert_rows_ok c rows ds :
  Forall2 (λ row d, stored row = Ok d) rows ds →
  ∀ rs f w,
  pg_conns w !! c = Some {| pending := Some rs; fetched := f |} →
  for_each rows (insert_row c) w =
    (Ok tt, with_rows c (rs ++ numbered (pg_seq w) ds) f
                      (pg_seq w + Z.of_nat (length ds)) w).
Proof.
  induction 1 as [|row d rows ds Hd _ IH]; intros rs f w Hc.
  - cbn. rewrite app_nil_r, Z.add_0_r, with_rows_id; done.
  - cbn [for_each]. unfold mbind at 1, M_bind at 1.
    rewrite (insert_row_ok _ _ _ _ _ _ Hc Hd).
    rewrite (IH (rs ++ numbered (pg_seq w) [d]) f).
    + rewrite with_rows_twice. cbn [pg_seq with_rows numbered length].
      rewrite <- app_assoc. cbn [app]. do 2 f_equal. lia.
    + cbn. by rewrite lookup_insert_eq.
Qed.

Lemma insert_rows_raise c good ds bad e rest :
  Forall2 (λ row d, stored row = Ok d) good ds →
  stored bad = Raise e →
  ∀ rs f w,
  pg_conns w !! c = Some {| pending := Some rs; fetched := f |} →
  for_each (good ++ bad :: rest) (insert_row c) w =
    (Raise e, with_rows c (rs ++ numbered (pg_seq w) ds) f
                        (pg_seq w + Z.of_nat (length ds)) w).
Proof.
  intros Hgood Hbad.
  induction Hgood as [|row d rows ds Hd _ IH]; intros rs f w Hc.
  - cbn [app for_each]. unfold mbind at 1, M_bind at 1.
    rewrite (insert_row_raise _ _ _ _ _ _ Hc Hbad).
    cbn. rewrite app_nil_r, Z.add_0_r, with_rows_id; done.
  - cbn [app for_each]. unfold mbind at 1, M_bind at 1.
    rewrite (insert_row_ok _ _ _ _ _ _ Hc Hd).
    rewrite (IH (rs ++ numbered (pg_seq w) [d]) f).
    + rewrite with_rows_twice. cbn [pg_seq with_rows numbered length].
      rewrite <- app_assoc. cbn [app]. do 2 f_equal. lia.
    + cbn. by rewrite lookup_insert_eq.
Qed.

(** *** The ingestion as a whole *)

(** Every row can be stored: the table holds exactly the new rows, the
    connection is released. *)
Lemma load_ok df ds w :
  pg_up w = true →
  Forall2 (λ row d, stored row = Ok d) (iterrows df) ds →
  load_csv_to_postgres (Ok df) w =
    (Ok tt,
     {| pg_up := true;
        pg_committed := Some (numbered (first_id w) ds);
        pg_seq := first_id w + Z.of_nat (length ds);
        pg_conns := pg_conns w;
        st_session := st_session w;
        log := log w ++ [Call "load_csv_to_postgres"] |}).
Proof.
  intros Hup Hds.
  unfold load_csv_to_postgres, get_connection, connect, cursor,
    record_event, pd_read_csv.
  run. rewrite Hup. cbn.
  assert (Hfresh : pg_conns w !! fresh (dom (pg_conns w)) = None)
    by (apply not_elem_of_dom, is_fresh).
  generalize dependent (fresh (dom (pg_conns w))). intros c Hfresh.
  change (for_each (iterrows df) _) with (for_each (iterrows df) (insert_row c)).
  unfold execute at 1. cbn. rewrite lookup_insert_eq. cbn.
  unfold first_id.
  destruct (pg_committed w) as [old|] eqn:Hold; cbn.
  - unfold commit at 1; cbn. rewrite lookup_insert_eq; cbn.
    unfold execute at 1; cbn. rewrite lookup_insert_eq; cbn.
    unfold commit at 1; cbn. rewrite lookup_insert_eq; cbn.
    erewrite (insert_rows_ok c _ _ Hds []); [|cbn; by rewrite lookup_insert_eq].
    cbn. unfold commit; cbn. rewrite lookup_insert_eq; cbn.
    unfold close; cbn. rewrite !insert_insert_eq, delete_insert_id by done.
    worlds; by rewrite ?Hup.
  - unfold commit at 1; cbn. rewrite lookup_insert_eq; cbn.
    unfold execute at 1; cbn. rewrite lookup_insert_eq; cbn.
    unfold commit at 1; cbn. rewrite lookup_insert_eq; cbn.
    erewrite (insert_rows_ok c _ _ Hds []); [|cbn; by rewrite lookup_insert_eq].
    cbn. unfold commit; cbn. rewrite lookup_insert_eq; cbn.
    unfold close; cbn. rewrite !insert_insert_eq, delete_insert_id by done.
    worlds; by rewrite ?Hup.
Qed.

(** A row cannot be stored: the exception leaves the function after the
    old rows are deleted for good; the rows inserted so far exist only in
    the transaction of the connection, which stays open. *)
Lemma load_raise df good ds bad e rest w :
  pg_up w = true →
  iterrows df = good ++ bad :: rest →
  Forall2 (λ row d, stored row = Ok d) good ds →
  stored bad = Raise e →
  load_csv_to_postgres (Ok df) w =
    (Raise e,
     {| pg_up := true;
        pg_committed := Some [];
        pg_seq := first_id w + Z.of_nat (length ds);
        pg_conns :=
          <[fresh (dom (pg_conns w)) :=
              {| pending := Some (numbered (first_id w) ds); fetched := None |}]>
            (pg_conns w);
        st_session := st_session w;
        log := log w ++ [Call "load_csv_to_postgres"] |}).
Proof.
  intros Hup Hrows Hds Hbad.
  unfold load_csv_to_postgres, get_connection, connect, cursor,
    record_event, pd_read_csv.
  run. rewrite Hup. cbn.
  generalize (fresh (dom (pg_conns w))). intros c.
  change (for_each (iterrows df) _) with (for_each (iterrows df) (insert_row c)).
  rewrite Hrows.
  unfold execute at 1. cbn. rewrite lookup_insert_eq. cbn.
  unfold first_id.
  destruct (pg_committed w) as [old|] eqn:Hold; cbn.
  - unfold commit at 1; cbn. rewrite lookup_insert_eq; cbn.
    unfold execute at 1; cbn. rewrite lookup_insert_eq; cbn.
    unfold commit at 1; cbn. rewrite lookup_insert_eq; cbn.
    erewrite (insert_rows_raise c _ _ _ _ _ Hds Hbad []);
      [|cbn; by rewrite lookup_insert_eq].
    worlds; by rewrite ?Hup, ?insert_insert_eq.
  - unfold commit at 1; cbn. rewrite lookup_insert_eq; cbn.
    unfold execute at 1; cbn. rewrite lookup_insert_eq; cbn.
    unfold commit at 1; cbn. rewrite lookup_insert_eq; cbn.
    erewrite (insert_rows_raise c _ _ _ _ _ Hds Hbad []);
      [|cbn; by rewrite lookup_insert_eq].
    worlds; by rewrite ?Hup, ?insert_insert_eq.
Qed.

(** [pd.read_csv] raises: nothing else happens. *)
Lemma load_unparsed e w :
  load_csv_to_postgres (Raise e) w =
    (Raise e, set_log (log w ++ [Call "load_csv_to_postgres"]) w).
Proof. reflexivity. Qed.

(** *** The query *)

Lemma get_data_ok rs w :
  pg_up w = true →
  pg_committed w = Some rs →
  get_data w =
    (Ok (pd_DataFrame (dict_of_record <$> rs)),
     set_log (log w ++ [Call "get_data"]) w).
Proof.
  intros Hup Hrs.
  unfold get_data, get_connection, connect, cursor, record_event, cursor_close.
  run. rewrite Hup, Hrs. cbn.
  assert (Hfresh : pg_conns w !! fresh (dom (pg_conns w)) = None)
    by (apply not_elem_of_dom, is_fresh).
  unfold execute. cbn. rewrite lookup_insert_eq. cbn.
  unfold fetchall. cbn. rewrite lookup_insert_eq. cbn.
  unfold close. cbn. rewrite insert_insert_eq, delete_insert_id by done.
  destruct w; cbn in *. by subst.
Qed.

(** The relation does not exist: the query raises and its connection
    stays open. *)
Lemma get_data_undefined w :
  pg_up w = true →
  pg_committed w = None →
  get_data w =
    (Raise UndefinedTable,
     set_conns (<[fresh (dom (pg_conns w)) :=
                    {| pending := None; fetched := None |}]> (pg_conns w))
               (set_log (log w ++ [Call "get_data"]) w)).
Proof.
  intros Hup Hrs.
  unfold get_data, get_connection, connect, cursor, record_event, cursor_close.
  run. rewrite Hup, Hrs. cbn.
  unfold execute. cbn. rewrite lookup_insert_eq. by cbn.
Qed.


(** *** What the query returns for a table *)

Lemma pd_DataFrame_rows rs :
  rows (pd_DataFrame (dict_of_record <$> rs)) = cells_of_record <$> rs.
Proof. cbn. rewrite <- list_fmap_compose. by apply list_fmap_ext. Qed.

Lemma pd_DataFrame_columns rs :
  rs ≠ [] → columns (pd_DataFrame (dict_of_record <$> rs)) = fetched_columns.
Proof. by destruct rs. Qed.



Lemma numbered_contents n ds : contents <$> numbered n ds = ds.
Proof.
  revert n. induction ds as [|[[a b] v] ds IH]; intros n; cbn; [done|].
  by rewrite IH.
Qed.

(** A load that can store every row, as [iterrows] hands it over,
    replaces the table: whatever the table held, it then holds exactly the
    stored rows, in the order of the input, with consecutive ids, and the
    connection of the load is released. *)
Theorem load_replaces_table df ds w :
  pg_up w = true →
  Forall2 (λ row d, stored row = Ok d) (iterrows df) ds →
  ∃ w',
    load_csv_to_postgres (Ok df) w = (Ok tt, w') ∧
    pg_committed w' = Some (numbered (first_id w) ds) ∧
    contents <$> numbered (first_id w) ds = ds ∧
    pg_conns w' = pg_conns w.
Proof.
  intros Hup Hds. eexists. split; [by apply load_ok|].
  split; [done|]. split; [apply numbered_contents|done].
Qed.

(** *** Which rows can be stored *)

(** A frame with a cell that is no number hands its rows over as they
    are. *)
Lemma iterrows_object df : values_dtype df = object → iterrows df = rows df.
Proof.
  unfold iterrows. intros ->. rewrite <- (list_fmap_id (rows df)) at 2.
  apply list_fmap_ext. intros _ row _. cbn.
  rewrite <- (list_fmap_id row) at 2. by apply list_fmap_ext.
Qed.









(** *** Claims on the query and on the ingestion *)

(** C3, as the script has it.  On a reachable server whose table [dados]
    exists, [get_data] returns without error a frame with one row per
    record, in insertion order; each row is the id of the record followed
    by its coluna1, coluna2 and valor, and as soon as the table holds a
    record the columns are named id, coluna1, coluna2, valor.  The table
    is left as it was and the connection is released. *)
Theorem get_data_reads_table_in_order w rs :
  pg_up w = true →
  pg_committed w = Some rs →
  ∃ df w',
    get_data w = (Ok df, w') ∧
    rows df = cells_of_record <$> rs ∧
    (rs ≠ [] → columns df = fetched_columns) ∧
    pg_committed w' = Some rs ∧
    pg_conns w' = pg_conns w.
Proof.
  intros Hup Hrs. eexists _, _. split; [by apply get_data_ok|].
  split; [apply pd_DataFrame_rows|].
  split; [apply pd_DataFrame_columns|]. done.
Qed.


(** C6, as the script has it.  When the insertion of a row, as
    [iterrows] hands it over, raises after the rows before it were
    inserted, the exception leaves
    [load_csv_to_postgres] with the table committed empty: the old rows
    are deleted, and the rows inserted so far were never committed, they
    exist only in the transaction of the connection, which is still open.
    A reader then gets the empty frame. *)
Theorem load_failure_commits_empty_table df good ds bad e rest w :
  pg_up w = true →
  iterrows df = good ++ bad :: rest →
  Forall2 (λ row d, stored row = Ok d) good ds →
  stored bad = Raise e →
  ∃ w',
    load_csv_to_postgres (Ok df) w = (Raise e, w') ∧
    pg_committed w' = Some [] ∧
    pg_conns w' !! fresh (dom (pg_conns w)) =
      Some {| pending := Some (numbered (first_id w) ds); fetched := None |} ∧
    (get_data w').1 = Ok {| columns := []; rows := [] |}.
Proof.
  intros Hup Hrows Hds Hbad. eexists. split; [by eapply load_raise|].
  split; [done|]. split; [cbn; by rewrite lookup_insert_eq|].
  by rewrite (get_data_ok []).
Qed.



(** *** The filter *)

Lemma py_eq_text s t : py_eq (CStr s) (CStr t) = true ↔ s = t.
Proof. cbn. apply bool_decide_eq_true. Qed.

Lemma getitem_Some {A} (l : list A) i a : l !! i = Some a → getitem l i = Ok a.
Proof. unfold getitem. by intros ->. Qed.

Lemma column_cells df name j :
  rectangular df →
  column_at df name j →
  ∃ cs, column df name = Ok cs ∧
        Forall2 (λ row c, row !! j = Some c) (rows df) cs.
Proof.
  unfold rectangular, column_at, column. intros Hrect Hfind. rewrite Hfind.
  apply list_find_Some in Hfind as (Hj%lookup_lt_Some & _).
  induction Hrect as [|row l Hrow _ (cs & Hcs & IH)]; [by exists []|].
  destruct (lookup_lt_is_Some_2 row j) as [c Hc]; [lia|].
  exists (c :: cs). split; [|by constructor].
  cbn [mapM]. rewrite (getitem_Some _ _ _ Hc).
  unfold mbind at 1, result_bind at 1. by rewrite Hcs.
Qed.

Lemma boolean_index_filter df cs j value :
  Forall2 (λ row c, row !! j = Some c) (rows df) cs →
  rows (boolean_index df (series_eq cs value)) =
    filter (λ row, cell_matches j value row = true) (rows df).
Proof.
  unfold boolean_index, series_eq. cbn [rows].
  induction 1 as [|row c l cs Hc _ IH]; [done|].
  cbn [fmap list_fmap zip zip_with] in *.
  assert (Hm : cell_matches j value row = py_eq c value)
    by (unfold cell_matches; by rewrite Hc).
  destruct (py_eq c value) eqn:E.
  - rewrite (filter_cons_True _ (row, true)) by done.
    rewrite (filter_cons_True _ row) by done.
    cbn. by rewrite IH.
  - rewrite (filter_cons_False _ (row, false)) by (cbn; congruence).
    rewrite (filter_cons_False _ row) by congruence.
    done.
Qed.

Lemma filter_all {A} (P : A → Prop) `{∀ x, Decision (P x)} (l : list A) :
  (∀ x, P x) → filter P l = l.
Proof.
  intros HP. induction l as [|x l IH]; [done|].
  rewrite filter_cons, decide_True by done. by rewrite IH.
Qed.

Lemma filter_none {A} (P : A → Prop) `{∀ x, Decision (P x)} (l : list A) :
  (∀ x, x ∈ l → ¬ P x) → filter P l = [].
Proof.
  intros HP. induction l as [|x l IH]; [done|].
  rewrite filter_cons, decide_False by (apply HP; left).
  apply IH. intros y Hy. apply HP. by right.
Qed.

Lemma rectangular_filter (P : list cell → Prop) `{∀ x, Decision (P x)} df :
  rectangular df →
  rectangular {| columns := columns df; rows := filter P (rows df) |}.
Proof.
  unfold rectangular. cbn. intros Hrect. apply Forall_forall.
  intros row [_ Hrow]%list_elem_of_filter.
  by apply (proj1 (Forall_forall _ _) Hrect).
Qed.

(** One step of the filter: the rows a filter value lets pass. *)
Lemma filter_step df name j filtro :
  rectangular df →
  column_at df name j →
  (if negb (py_eq filtro Todos) then
     s ← column df name;
     mret (boolean_index df (series_eq s filtro))
   else mret df) =
  Ok {| columns := columns df;
        rows := filter (λ row, keeps j filtro row = true) (rows df) |}.
Proof.
  intros Hrect Hcol. unfold keeps.
  destruct (py_eq filtro Todos) eqn:Hall; cbn.
  - rewrite filter_all by done. by destruct df.
  - destruct (column_cells _ _ _ Hrect Hcol) as (cs & -> & Hcs). cbn.
    unfold mret, result_ret. f_equal.
    pose proof (boolean_index_filter df cs j filtro Hcs) as Hrows.
    unfold boolean_index in *. cbn in *. by rewrite Hrows.
Qed.

(** The frame [get_data] returns for a table with a row is rectangular
    and has coluna1 and coluna2 at positions 1 and 2. *)
Lemma fetched_frame_shape rs :
  rs ≠ [] →
  rectangular (pd_DataFrame (dict_of_record <$> rs)) ∧
  column_at (pd_DataFrame (dict_of_record <$> rs)) (py "coluna1") 1 ∧
  column_at (pd_DataFrame (dict_of_record <$> rs)) (py "coluna2") 2.
Proof.
  intros Hne. split; [|by destruct rs].
  unfold rectangular. rewrite pd_DataFrame_rows, pd_DataFrame_columns by done.
  apply Forall_fmap, Forall_forall. by intros r _.
Qed.

(** The filter on a frame that has both columns. *)
Lemma df_filtrado_ok data j1 j2 filtro1 filtro2 :
  rectangular data →
  column_at data (py "coluna1") j1 →
  column_at data (py "coluna2") j2 →
  df_filtrado data filtro1 filtro2 =
    Ok {| columns := columns data;
          rows := filter (λ row, keeps j1 filtro1 row = true ∧
                                 keeps j2 filtro2 row = true)
                         (rows data) |}.
Proof.
  intros Hrect H1 H2. unfold df_filtrado.
  rewrite (filter_step data _ j1 filtro1 Hrect H1).
  cbn [mbind result_bind].
  rewrite (filter_step _ _ j2 filtro2 (rectangular_filter _ _ Hrect) H2).
  cbn [columns rows]. do 2 f_equal.
  rewrite list_filter_filter. apply list_filter_iff. tauto.
Qed.

(** C2.  On a frame that has the columns coluna1 and coluna2, the filter
    of the script returns, without error, the frame with the same columns
    and exactly the rows, in order, that pass both filter values: a value
    "Todos" lets every row pass, any other value lets a row pass when the
    cell of its column equals the value by Python's [==], which on text is
    equality code point by code point.  A value that is not "Todos" and
    equals no cell of its column gives the frame without rows. *)
Theorem df_filtrado_keeps_matching_rows data j1 j2 filtro1 filtro2 :
  rectangular data →
  column_at data (py "coluna1") j1 →
  column_at data (py "coluna2") j2 →
  ∃ out,
    df_filtrado data filtro1 filtro2 = Ok out ∧
    columns out = columns data ∧
    rows out =
      filter (λ row, keeps j1 filtro1 row = true ∧ keeps j2 filtro2 row = true)
             (rows data) ∧
    (∀ s t, py_eq (CStr s) (CStr t) = true ↔ s = t) ∧
    (py_eq filtro1 Todos = false →
     (∀ row, row ∈ rows data → cell_matches j1 filtro1 row = false) →
     rows out = []) ∧
    (py_eq filtro2 Todos = false →
     (∀ row, row ∈ rows data → cell_matches j2 filtro2 row = false) →
     rows out = []).
Proof.
  intros Hrect H1 H2. eexists. split; [by apply df_filtrado_ok|].
  cbn [columns rows].
  split; [done|]. split; [done|]. split; [apply py_eq_text|].
  split.
  - intros Hc Hno. apply filter_none. intros row Hrow [Hk _].
    unfold keeps in Hk. rewrite Hc, (Hno row Hrow) in Hk. done.
  - intros Hc Hno. apply filter_none. intros row Hrow [_ Hk].
    unfold keeps in Hk. rewrite Hc, (Hno row Hrow) in Hk. done.
Qed.

(** The filter with "Todos" for both columns returns the frame it was
    given, whatever the frame. *)
Theorem df_filtrado_Todos data : df_filtrado data Todos Todos = Ok data.
Proof. reflexivity. Qed.

(** Filtering the filtered view again with the same values changes
    nothing. *)
Theorem df_filtrado_idempotent data j1 j2 filtro1 filtro2 out :
  rectangular data →
  column_at data (py "coluna1") j1 →
  column_at data (py "coluna2") j2 →
  df_filtrado data filtro1 filtro2 = Ok out →
  df_filtrado out filtro1 filtro2 = Ok out.
Proof.
  intros Hrect H1 H2 Hout.
  rewrite (df_filtrado_ok data j1 j2 filtro1 filtro2 Hrect H1 H2) in Hout.
  injection Hout as <-.
  rewrite (df_filtrado_ok _ j1 j2 filtro1 filtro2
             (rectangular_filter _ _ Hrect) H1 H2).
  cbn [columns rows]. do 2 f_equal.
  rewrite list_filter_filter. apply list_filter_iff. tauto.
Qed.

(** *** The PDF export *)

Lemma for_pdf_ok {A} (P : A → Prop) (body : FPDF → A → result FPDF) l pdf :
  (∀ pdf x, P x → succeeds (body pdf x)) →
  Forall P l →
  succeeds (for_pdf l body pdf).
Proof.
  intros Hbody Hl. revert pdf.
  induction Hl as [|x l Hx _ IH]; intros pdf; [by eexists|].
  cbn [for_pdf]. destruct (Hbody pdf x Hx) as [pdf' ->]. apply IH.
Qed.

Lemma for_pdf_raise {A} (P : A → Prop) `{∀ x, Decision (P x)} e
    (body : FPDF → A → result FPDF) l pdf :
  (∀ pdf x, P x → succeeds (body pdf x)) →
  (∀ pdf x, ¬ P x → body pdf x = Raise e) →
  ¬ Forall P l →
  for_pdf l body pdf = Raise e.
Proof.
  intros Hok Hraise. revert pdf.
  induction l as [|x l IH]; intros pdf Hl; [by destruct Hl|].
  cbn [for_pdf]. destruct (decide (P x)) as [Hx|Hx].
  - destruct (Hok pdf x Hx) as [pdf' ->]. apply IH.
    intros Hl'. apply Hl. by constructor.
  - by rewrite (Hraise pdf x Hx).
Qed.

Lemma pdf_cell_ok pdf w h txt :
  Forall latin1 txt → succeeds (pdf_cell pdf w h txt 1).
Proof. intros Htxt. unfold pdf_cell. rewrite decide_True by done. by eexists. Qed.

Lemma pdf_cell_raise pdf w h txt :
  ¬ Forall latin1 txt → pdf_cell pdf w h txt 1 = Raise FPDFUnicodeEncodingException.
Proof. intros Htxt. unfold pdf_cell. by rewrite decide_False. Qed.

(** The line of a row: drawn when every text of the row is Latin-1,
    refused otherwise. *)
Lemma pdf_row_ok pdf w h (row : list cell) :
  Forall (λ item, Forall latin1 (str item)) row →
  succeeds (pdf ← for_pdf row (λ pdf item, pdf_cell pdf w h (str item) 1) pdf;
            Ok (ln pdf h)).
Proof.
  intros Hrow.
  destruct (for_pdf_ok (λ item, Forall latin1 (str item))
              (λ pdf item, pdf_cell pdf w h (str item) 1) row pdf)
    as [pdf' ->]; [|done|by eexists].
  intros pdf0 item. apply pdf_cell_ok.
Qed.

Lemma pdf_row_raise pdf w h (row : list cell) :
  ¬ Forall (λ item, Forall latin1 (str item)) row →
  (pdf ← for_pdf row (λ pdf item, pdf_cell pdf w h (str item) 1) pdf;
   Ok (ln pdf h)) = Raise FPDFUnicodeEncodingException.
Proof.
  intros Hrow.
  rewrite (for_pdf_raise (λ item, Forall latin1 (str item))
             FPDFUnicodeEncodingException); [done| | |done].
  - intros pdf0 item. apply pdf_cell_ok.
  - intros pdf0 item. apply pdf_cell_raise.
Qed.

(** The texts of a frame are Latin-1 when the column names and the cells
    of every row are. *)
Lemma frame_texts_latin1 df :
  Forall (Forall latin1) (frame_texts df) ↔
  Forall (Forall latin1) (columns df) ∧
  Forall (Forall (λ item, Forall latin1 (str item))) (iterrows df).
Proof.
  unfold frame_texts. rewrite Forall_app, Forall_fmap, Forall_concat. done.
Qed.

(** A frame without column: the division by the number of columns
    raises. *)
Lemma to_pdf_no_column df :
  columns df = [] → to_pdf df = Raise ZeroDivisionError.
Proof. unfold to_pdf. by intros ->. Qed.

(** A frame with a column and a text that is not Latin-1: the cell of the
    first such text raises. *)
Lemma to_pdf_refused df :
  columns df ≠ [] →
  ¬ Forall (Forall latin1) (frame_texts df) →
  to_pdf df = Raise FPDFUnicodeEncodingException.
Proof.
  intros Hcol Hnot. rewrite frame_texts_latin1 in Hnot. unfold to_pdf.
  destruct (columns df) as [|col cols] eqn:Hcols; [done|].
  cbn [length truediv mbind result_bind].
  set (w := (epw _ / _)%Q). set (h := (font_size _ * 2)%Q).
  destruct (decide (Forall (Forall latin1) (col :: cols))) as [Hhead|Hhead].
  - destruct (for_pdf_ok (Forall latin1) (λ pdf c, pdf_cell pdf w h c 1)
                (col :: cols) (set_font (add_page FPDF_new) (py "Arial") 12))
      as [pdf1 ->]; [intros pdf0 c; apply pdf_cell_ok|done|].
    cbn [mbind result_bind].
    rewrite (for_pdf_raise (Forall (λ item, Forall latin1 (str item)))
               FPDFUnicodeEncodingException); [done| | |tauto].
    + intros pdf0 row. apply pdf_row_ok.
    + intros pdf0 row. apply pdf_row_raise.
  - rewrite (for_pdf_raise (Forall latin1) FPDFUnicodeEncodingException);
      [done| | |done].
    + intros pdf0 c. apply pdf_cell_ok.
    + intros pdf0 c. apply pdf_cell_raise.
Qed.

(** A frame with a column and Latin-1 texts only: the document is drawn,
    and the call of [encode] on what [output] returns raises. *)
Lemma to_pdf_drawn df :
  columns df ≠ [] →
  Forall (Forall latin1) (frame_texts df) →
  to_pdf df = Raise AttributeError.
Proof.
  intros Hcol [Hhead Hrows]%frame_texts_latin1. unfold to_pdf.
  destruct (columns df) as [|col cols] eqn:Hcols; [done|].
  cbn [length truediv mbind result_bind].
  set (w := (epw _ / _)%Q). set (h := (font_size _ * 2)%Q).
  destruct (for_pdf_ok (Forall latin1) (λ pdf c, pdf_cell pdf w h c 1)
              (col :: cols) (set_font (add_page FPDF_new) (py "Arial") 12))
    as [pdf1 ->]; [intros pdf0 c; apply pdf_cell_ok|done|].
  cbn [mbind result_bind].
  destruct (for_pdf_ok (Forall (λ item, Forall latin1 (str item)))
              (λ pdf row,
                 pdf ← for_pdf row (λ pdf item, pdf_cell pdf w h (str item) 1) pdf;
                 Ok (ln pdf h))
              (iterrows df) (ln pdf1 h))
    as [pdf2 ->]; [intros pdf0 row; apply pdf_row_ok|done|].
  done.
Qed.

(** A frame as pandas builds them that has no column has no text. *)
Lemma frame_texts_no_column df :
  rectangular df → columns df = [] → frame_texts df = [].
Proof.
  intros Hrect Hnil. unfold frame_texts, iterrows. rewrite Hnil. cbn [app].
  assert (Hrows : Forall (λ row, row = []) (rows df)).
  { eapply Forall_impl; [exact Hrect|]. intros row Hrow. cbn in Hrow.
    rewrite Hnil in Hrow. by apply nil_length_inv. }
  induction Hrows as [|row l -> _ IH]; [done|]. exact IH.
Qed.

(** C10.  On a frame as pandas builds them, when one of the texts that
    [to_pdf] draws, a column name or the [str] of a cell, holds a code
    point outside Latin-1, [to_pdf] raises the encoding exception of the
    library and returns no bytes: bytes are returned only for frames whose
    texts are all Latin-1. *)
Theorem to_pdf_needs_latin1 df :
  rectangular df →
  ¬ Forall (Forall latin1) (frame_texts df) →
  to_pdf df = Raise FPDFUnicodeEncodingException.
Proof.
  intros Hrect Hnot. apply to_pdf_refused; [|done].
  intros Hnil. apply Hnot.
  rewrite (frame_texts_no_column df Hrect Hnil). constructor.
Qed.


(** *** Who reaches the ingestion *)

Section Gate.
Variable users : gmap pystr pystr.
Variable to_excel : DataFrame → result (list Byte.byte).
Variable u : pystr.

Lemma quiet_bind {A B} I (m : M A) (k : A → M B) Q R :
  quiet I m Q → (∀ a, Q a → quiet I (k a) R) → quiet I (m ≫= k) R.
Proof.
  intros Hm Hk w Hw. destruct (Hm w Hw) as ((evs & Hlog & Hevs) & Hcom & Hok).
  unfold mbind, M_bind. destruct (m w) as [[a|e] w'] eqn:Hmw; cbn in *.
  - destruct (Hok a eq_refl) as [HI HQ].
    destruct (Hk a HQ w' HI) as ((evs' & Hlog' & Hevs') & Hcom' & Hok').
    split; [|split; [congruence|done]].
    exists (evs ++ evs'). rewrite Hlog', Hlog, app_assoc. split; [done|].
    rewrite elem_of_app. tauto.
  - split; [by exists evs|]. split; [done|]. intros a [=].
Qed.

Lemma quiet_silent {A} (m : M A) :
  silent m → quiet (session_of_user u) m (λ _, True).
Proof.
  intros Hm w Hw. destruct (Hm w) as (Hlog & Hcom & Hses).
  split; [exists []; rewrite app_nil_r; split; [done|apply not_elem_of_nil]|].
  split; [done|]. intros a _. split; [|done].
  unfold session_of_user. by rewrite Hses.
Qed.

Lemma quiet_event e :
  e ≠ ingest_call → quiet (session_of_user u) (record_event e) (λ _, True).
Proof.
  intros He w Hw. cbn. split; [|done].
  exists [e]. split; [done|]. apply not_elem_of_cons.
  split; [congruence|apply not_elem_of_nil].
Qed.

Lemma quiet_show s : quiet (session_of_user u) (show s) (λ _, True).
Proof. by apply quiet_event. Qed.

Lemma quiet_lift {A} (r : result A) :
  quiet (session_of_user u) (lift r) (λ _, True).
Proof. by apply quiet_silent. Qed.

Lemma quiet_ret {A} (a : A) :
  quiet (session_of_user u) (mret a) (λ _, True).
Proof. by apply quiet_silent. Qed.

Lemma silent_execute cur stmt : silent (execute cur stmt).
Proof.
  intros w. unfold execute.
  destruct (pg_conns w !! cur) as [c|]; [|done].
  destruct (negb (forallb adaptable (params stmt))); [done|].
  destruct stmt, (pending c); cbn; try done.
  by destruct (to_numeric p2).
Qed.

Lemma silent_fetchall cur : silent (fetchall cur).
Proof.
  intros w. unfold fetchall.
  destruct (pg_conns w !! cur) as [c|]; [|done]. by destruct (fetched c).
Qed.

Lemma silent_connect : silent connect.
Proof. intros w. unfold connect. by destruct (pg_up w). Qed.

Lemma quiet_get_data : quiet (session_of_user u) get_data (λ _, True).
Proof.
  unfold get_data, get_connection, cursor, cursor_close.
  eapply quiet_bind; [by apply quiet_event|]. intros _ _.
  eapply quiet_bind; [apply quiet_silent, silent_connect|]. intros conn _.
  eapply quiet_bind; [apply quiet_ret|]. intros cur _.
  eapply quiet_bind; [apply quiet_silent, silent_execute|]. intros _ _.
  eapply quiet_bind; [apply quiet_silent, silent_fetchall|]. intros data _.
  eapply quiet_bind; [apply quiet_ret|]. intros _ _.
  eapply quiet_bind; [by apply quiet_silent|]. intros _ _.
  apply quiet_ret.
Qed.

(** [login] returns only in a session that is logged in, which it leaves
    as it is; otherwise it raises. *)
Lemma login_cases i w :
  match logged_in (st_session w) with
  | Some true =>
      login users i w = (Ok tt, w)
  | _ =>
      ∃ e w',
        login users i w = (Raise e, w') ∧
        pg_committed w' = pg_committed w ∧
        (∃ evs, log w' = log w ++ evs ∧ ingest_call ∉ evs) ∧
        (e = RerunException ∧ entrar i = true ∧
         users !! usuario i = Some (senha i) ∧
         st_session w' = {| logged_in := Some true; user := Some (usuario i) |}
         ∨
         e = StopException ∧
         (entrar i = false ∨ users !! usuario i ≠ Some (senha i)) ∧
         st_session w' = {| logged_in := Some false; user := user (st_session w) |})
  end.
Proof.
  unfold login, session, assign_logged_in, assign_user, show, record_event,
    st_stop, st_experimental_rerun.
  assert (Hshow : ∀ a b : string, Show a ≠ Call b) by done.
  destruct w as [up com sq conns [[[|]|] usr] lg]; run; [done|..];
    (destruct (entrar i) eqn:Hb; [case_bool_decide as Hu|]; cbn;
     eexists _, _; (split; [reflexivity|]); cbn; (split; [reflexivity|]);
     (split; [|by eauto 6])).
  all: try (exists [Show "title: Login"]; split; [done|];
            apply not_elem_of_cons; split; [done|apply not_elem_of_nil]).
  all: exists [Show "title: Login"; Show "error: Usuário ou senha incorretos"];
    (split; [by rewrite <- app_assoc|]);
    repeat (apply not_elem_of_cons; split; [done|]); apply not_elem_of_nil.
Qed.

Lemma quiet_login i : quiet (session_of_user u) (login users i) (λ _, True).
Proof.
  intros w Hw. pose proof (login_cases i w) as Hl.
  destruct (logged_in (st_session w)) as [[|]|].
  - rewrite Hl. cbn. split; [|done].
    exists []. rewrite app_nil_r. split; [done|apply not_elem_of_nil].
  - destruct Hl as (e & w' & -> & Hcom & Hlog & _). cbn.
    split; [done|]. split; [done|]. intros a [=].
  - destruct Hl as (e & w' & -> & Hcom & Hlog & _). cbn.
    split; [done|]. split; [done|]. intros a [=].
Qed.

Lemma quiet_check_role :
  quiet (session_of_user u) check_role (λ role, role = role_of u).
Proof.
  intros w Hw. unfold check_role, session. run.
  unfold session_of_user in Hw. rewrite Hw. cbn.
  split; [exists []; rewrite app_nil_r; split; [done|apply not_elem_of_nil]|].
  split; [done|]. by intros a [= <-].
Qed.

(** A session whose identity does not have the role admin: [main] does
    not call the ingestion. *)
Lemma quiet_main i :
  role_of u ≠ py "admin" →
  quiet (session_of_user u) (main users to_excel i) (λ _, True).
Proof.
  intros Hrole. unfold main.
  eapply quiet_bind; [apply quiet_show|]. intros _ _.
  eapply quiet_bind; [apply quiet_show|]. intros _ _.
  eapply quiet_bind; [apply quiet_show|]. intros _ _.
  eapply quiet_bind; [apply quiet_login|]. intros _ _.
  eapply quiet_bind; [apply quiet_check_role|]. intros role ->.
  eapply quiet_bind.
  { repeat case_bool_decide; apply quiet_show. }
  intros _ _.
  rewrite (bool_decide_eq_false_2 _ Hrole).
  eapply quiet_bind; [apply quiet_ret|]. intros _ _.
  eapply quiet_bind; [apply quiet_get_data|]. intros data _.
  eapply quiet_bind; [apply quiet_show|]. intros _ _.
  eapply quiet_bind; [apply quiet_lift|]. intros coluna1 _.
  eapply quiet_bind; [apply quiet_lift|]. intros coluna2 _.
  eapply quiet_bind; [apply quiet_lift|]. intros df _.
  eapply quiet_bind; [apply quiet_show|]. intros _ _.
  eapply quiet_bind; [apply quiet_show|]. intros _ _.
  eapply quiet_bind; [apply quiet_show|]. intros _ _.
  eapply quiet_bind; [by apply quiet_event|]. intros _ _.
  eapply quiet_bind; [apply quiet_lift|]. intros excel_data _.
  eapply quiet_bind; [apply quiet_show|]. intros _ _.
  eapply quiet_bind; [by apply quiet_event|]. intros _ _.
  eapply quiet_bind; [apply quiet_lift|]. intros pdf_data _.
  apply quiet_show.
Qed.

End Gate.

Lemma check_role_reads_session w :
  check_role w =
    (match user (st_session w) with
     | Some u => Ok (role_of u)
     | None => Raise AttributeError
     end, w).
Proof.
  unfold check_role, session, mbind, M_bind.
  by destruct (user (st_session w)).
Qed.

Lemma role_of_cases u :
  role_of u =
    if decide (u = py "admin") then py "admin"
    else if decide (u = py "analyst") then py "analyst"
    else py "reader".
Proof.
  unfold role_of, role_map.
  rewrite lookup_insert. case_decide as Ha; [by subst|].
  rewrite decide_False by done.
  rewrite lookup_insert. case_decide as Hb; [by subst|].
  rewrite decide_False by done.
  rewrite lookup_singleton. by case_decide; subst.
Qed.

(** C4.  In a run of [main] whose session gives [check_role] a role other
    than admin, so reader or analyst, [load_csv_to_postgres] is not
    called, whatever the widgets hold (an uploaded file included): the log
    of the run has no call of it, and the committed table is the one
    before the run. *)
Theorem main_ingests_only_for_admin users to_excel i w role :
  (check_role w).1 = Ok role →
  role ≠ py "admin" →
  (∃ evs, log (main users to_excel i w).2 = log w ++ evs ∧
          ingest_call ∉ evs) ∧
  pg_committed (main users to_excel i w).2 = pg_committed w.
Proof.
  intros Hrole Hne. rewrite check_role_reads_session in Hrole.
  destruct (user (st_session w)) as [u|] eqn:Hu; [|done].
  injection Hrole as <-.
  destruct (quiet_main users to_excel u i Hne w Hu) as (Hlog & Hcom & _).
  done.
Qed.


Lemma bind_Ok {A B} (m : M A) (k : A → M B) w a w' :
  m w = (Ok a, w') → (m ≫= k) w = k a w'.
Proof. unfold mbind, M_bind. by intros ->. Qed.

Lemma bind_Raise {A B} (m : M A) (k : A → M B) w e w' :
  m w = (Raise e, w') → (m ≫= k) w = (Raise e, w').
Proof. unfold mbind, M_bind. by intros ->. Qed.

(** A run of [main] in a session that is not logged in ends in [login]. *)
Lemma main_not_logged_in users to_excel i w :
  logged_in (st_session w) ≠ Some true →
  ∃ e w',
    main users to_excel i w = (Raise e, w') ∧
    pg_committed w' = pg_committed w ∧
    (∃ evs, log w' = log w ++ evs ∧ ingest_call ∉ evs) ∧
    (e = RerunException ∧ entrar i = true ∧
     users !! usuario i = Some (senha i) ∧
     st_session w' = {| logged_in := Some true; user := Some (usuario i) |}
     ∨
     e = StopException ∧
     (entrar i = false ∨ users !! usuario i ≠ Some (senha i)) ∧
     st_session w' = {| logged_in := Some false; user := user (st_session w) |}).
Proof.
  intros Hout. unfold main.
  erewrite bind_Ok by reflexivity.
  erewrite bind_Ok by reflexivity.
  erewrite bind_Ok by reflexivity.
  match goal with |- context [(login users i ≫= _) ?w3] =>
    pose proof (login_cases users i w3) as Hl end.
  cbn [st_session set_log] in Hl.
  destruct (logged_in (st_session w)) as [[|]|] eqn:Hin; [done|..].
  all: destruct Hl as (e & w' & Hl & Hcom & (evs & Hlog & Hevs) & Hcases).
  all: exists e, w'.
  all: split; [by erewrite bind_Raise by exact Hl|].
  all: split; [done|]; split; [|done].
  all: exists ([Show "set_page_config"; Show "sidebar.title: Menu";
               Show "sidebar.markdown: Navegação"] ++ evs).
  all: cbn in Hlog; rewrite Hlog, <- !app_assoc; split; [done|].
  all: rewrite elem_of_app; intros [Hin'|Hin']; [|done].
  all: repeat (apply elem_of_cons in Hin' as [Hin'|Hin']; [done|]).
  all: by apply elem_of_nil in Hin'.
Qed.

Lemma authorize_logged_in users i w :
  logged_in (st_session w) = Some true →
  authorize users i w =
    (match user (st_session w) with
     | Some u => Ok (role_of u)
     | None => Raise AttributeError
     end, w).
Proof.
  intros Hin. unfold authorize.
  pose proof (login_cases users i w) as Hl. rewrite Hin in Hl.
  erewrite bind_Ok by exact Hl. apply check_role_reads_session.
Qed.

Lemma authorize_not_logged_in users i w :
  logged_in (st_session w) ≠ Some true →
  ∃ e w',
    login users i w = (Raise e, w') ∧
    authorize users i w = (Raise e, w').
Proof.
  intros Hout. unfold authorize.
  pose proof (login_cases users i w) as Hl.
  destruct (logged_in (st_session w)) as [[|]|]; [done|..];
    destruct Hl as (e & w' & Hl & _); exists e, w';
    (split; [done|]); by erewrite bind_Raise by exact Hl.
Qed.

(** C5.  The authorisation of a run is [login] followed by [check_role].
    It returns a role only in a session that is logged in, and then the
    fixed role of the identity of the session: the role of its name for
    admin, analyst and reader, the role reader for any other identity
    that [login] has accepted.  An unknown identity, credentials that are
    not an entry of [users] (or that are typed without pressing the
    button), is rejected: in a session that is not logged in the run stops
    in [login], before [check_role], so no role is returned; the session
    stays not logged in, and the run of [main] makes no call of the
    ingestion and leaves the table as it is.  A known identity is
    recorded by [login], which asks for a rerun without a call of the
    ingestion; from then on the authorisation returns its role. *)
Theorem authorize_rejects_unknown_identities users to_excel i w :
  (∀ role,
     (authorize users i w).1 = Ok role →
     logged_in (st_session w) = Some true ∧
     ∃ u, user (st_session w) = Some u ∧
          role = if decide (u = py "admin") then py "admin"
                 else if decide (u = py "analyst") then py "analyst"
                 else py "reader") ∧
  (logged_in (st_session w) ≠ Some true →
   ¬ known users i →
   (authorize users i w).1 = Raise StopException ∧
   logged_in (st_session (authorize users i w).2) = Some false ∧
   (main users to_excel i w).1 = Raise StopException ∧
   (∃ evs, log (main users to_excel i w).2 = log w ++ evs ∧
           ingest_call ∉ evs) ∧
   pg_committed (main users to_excel i w).2 = pg_committed w) ∧
  (logged_in (st_session w) ≠ Some true →
   known users i →
   (authorize users i w).1 = Raise RerunException ∧
   st_session (authorize users i w).2 =
     {| logged_in := Some true; user := Some (usuario i) |} ∧
   (∀ i', (authorize users i' (authorize users i w).2).1 =
          Ok (if decide (usuario i = py "admin") then py "admin"
              else if decide (usuario i = py "analyst") then py "analyst"
              else py "reader")) ∧
   (∃ evs, log (main users to_excel i w).2 = log w ++ evs ∧
           ingest_call ∉ evs) ∧
   pg_committed (main users to_excel i w).2 = pg_committed w).
Proof.
  split; [|split].
  - intros role Hrole.
    destruct (decide (logged_in (st_session w) = Some true)) as [Hin|Hout].
    + split; [done|]. rewrite (authorize_logged_in _ _ _ Hin) in Hrole.
      destruct (user (st_session w)) as [u|]; [|done].
      injection Hrole as <-. exists u. split; [done|apply role_of_cases].
    + destruct (authorize_not_logged_in users i w Hout) as (e & w' & _ & Ha).
      by rewrite Ha in Hrole.
  - intros Hout Hunknown.
    destruct (authorize_not_logged_in users i w Hout) as (e & w' & Hl & Ha).
    destruct (main_not_logged_in users to_excel i w Hout)
      as (e' & w'' & Hm & Hcom & Hlog & Hcases).
    pose proof (login_cases users i w) as Hc.
    rewrite Ha, Hm. cbn [fst snd].
    assert (e = StopException ∧ logged_in (st_session w') = Some false)
      as [-> Hs].
    { destruct (logged_in (st_session w)) as [[|]|]; [done|..];
        destruct Hc as (e0 & w0 & Hl0 & _ & _ & Hc);
        rewrite Hl in Hl0; injection Hl0 as <- <-;
        (destruct Hc as [(_ & Hb & Hu & _)|(-> & _ & ->)];
         [by destruct Hunknown|done]). }
    destruct Hcases as [(_ & Hb & Hu & _)|(-> & _ & _)];
      [by destruct Hunknown|done].
  - intros Hout [Hb Hu].
    destruct (authorize_not_logged_in users i w Hout) as (e & w' & Hl & Ha).
    destruct (main_not_logged_in users to_excel i w Hout)
      as (e' & w'' & Hm & Hcom & Hlog & _).
    pose proof (login_cases users i w) as Hc.
    rewrite Ha, Hm. cbn [fst snd].
    assert (e = RerunException ∧
            st_session w' = {| logged_in := Some true; user := Some (usuario i) |})
      as [-> Hs].
    { destruct (logged_in (st_session w)) as [[|]|]; [done|..];
        destruct Hc as (e0 & w0 & Hl0 & _ & _ & Hc);
        rewrite Hl in Hl0; injection Hl0 as <- <-;
        (destruct Hc as [(-> & _ & _ & ->)|(_ & [Hf|Hf] & _)];
         [done|congruence|done]). }
    split; [done|]. split; [done|]. split; [|done].
    intros i'. rewrite authorize_logged_in by (by rewrite Hs).
    rewrite Hs. cbn. by rewrite role_of_cases.
Qed.


(** *** More on the store *)

Lemma bind_ext {A B} (m : M A) (k k' : A → M B) w :
  (∀ a w', k a w' = k' a w') → (m ≫= k) w = (m ≫= k') w.
Proof.
  intros Hk. unfold mbind, M_bind. destruct (m w) as [[a|e] w']; [apply Hk|done].
Qed.

Lemma bind_ext_l {A B} (m m' : M A) (k : A → M B) w :
  m w = m' w → (m ≫= k) w = (m' ≫= k) w.
Proof. unfold mbind, M_bind. by intros ->. Qed.

Lemma for_each_fmap {A B} (h : A → B) (f : A → M unit) (g : B → M unit) l :
  (∀ x w, f x w = g (h x) w) →
  ∀ w, for_each l f w = for_each (h <$> l) g w.
Proof.
  intros Hfg. induction l as [|x l IH]; intros w; [done|].
  cbn [for_each fmap list_fmap]. unfold mbind, M_bind. rewrite Hfg.
  destruct (g (h x) w) as [[[]|e] w']; [apply IH|done].
Qed.

Lemma take_lookup_3 {A} (row : list A) i :
  (i < 3)%nat → getitem (take 3 row) i = getitem row i.
Proof. intros Hi. unfold getitem. by rewrite lookup_take_lt. Qed.

(** The ingestion reads the first three cells of every row, as
    [iterrows] hands it over, and nothing else of the frame: two frames
    whose rows agree on these cells are loaded alike, whatever their
    column names and their other cells.  (The other cells still count
    for the dtype in which the rows are handed over.) *)
Theorem load_reads_the_first_three_cells df df' w :
  take 3 <$> iterrows df = take 3 <$> iterrows df' →
  load_csv_to_postgres (Ok df) w = load_csv_to_postgres (Ok df') w.
Proof.
  intros Hrows. unfold load_csv_to_postgres, pd_read_csv.
  apply bind_ext; intros _ w1.
  rewrite (bind_Ok (lift (Ok df)) _ w1 df w1 eq_refl).
  rewrite (bind_Ok (lift (Ok df')) _ w1 df' w1 eq_refl).
  apply bind_ext; intros conn w2.
  apply bind_ext; intros cur w3.
  apply bind_ext; intros _ w4.
  apply bind_ext; intros _ w5.
  apply bind_ext; intros _ w6.
  apply bind_ext; intros _ w7.
  apply bind_ext_l.
  set (body := λ row : list cell, _).
  assert (Htake : ∀ l w', for_each l body w' = for_each (take 3 <$> l) body w').
  { intros l w'. apply for_each_fmap. intros row w''. unfold body.
    by rewrite !take_lookup_3 by lia. }
  by rewrite (Htake (iterrows df)), (Htake (iterrows df')), Hrows.
Qed.


(** The server cannot be reached: the connection attempt raises, and
    nothing but the log has changed. *)
Lemma load_down df w :
  pg_up w = false →
  load_csv_to_postgres (Ok df) w =
    (Raise OperationalError,
     set_log (log w ++ [Call "load_csv_to_postgres"]) w).
Proof.
  intros Hup. unfold load_csv_to_postgres, get_connection, connect,
    record_event, pd_read_csv.
  run. by rewrite Hup.
Qed.

Lemma get_data_down w :
  pg_up w = false →
  get_data w = (Raise OperationalError, set_log (log w ++ [Call "get_data"]) w).
Proof.
  intros Hup. unfold get_data, get_connection, connect, record_event.
  run. by rewrite Hup.
Qed.

(** When the server cannot be reached, ingestion and query both raise
    [OperationalError] before any statement is sent: the table, the
    sequence and the open connections are what they were; in particular
    the old rows are not deleted. *)
Theorem unreachable_server_changes_nothing df w :
  pg_up w = false →
  (load_csv_to_postgres (Ok df) w).1 = Raise OperationalError ∧
  (get_data w).1 = Raise OperationalError ∧
  pg_committed (load_csv_to_postgres (Ok df) w).2 = pg_committed w ∧
  pg_seq (load_csv_to_postgres (Ok df) w).2 = pg_seq w ∧
  pg_conns (load_csv_to_postgres (Ok df) w).2 = pg_conns w ∧
  pg_committed (get_data w).2 = pg_committed w ∧
  pg_conns (get_data w).2 = pg_conns w.
Proof. intros Hup. by rewrite load_down, get_data_down. Qed.

(** The query only reads.  Whatever the world, also when it raises,
    [get_data] leaves the committed table, the sequence and the session
    as they are; and it returns with its connection released unless the
    table does not exist. *)
Theorem get_data_only_reads w :
  pg_committed (get_data w).2 = pg_committed w ∧
  pg_seq (get_data w).2 = pg_seq w ∧
  st_session (get_data w).2 = st_session w ∧
  ((get_data w).1 ≠ Raise UndefinedTable → pg_conns (get_data w).2 = pg_conns w).
Proof.
  destruct (pg_up w) eqn:Hup.
  - destruct (pg_committed w) as [rs|] eqn:Hrs.
    + by rewrite (get_data_ok rs).
    + rewrite get_data_undefined by done. cbn. by rewrite Hrs.
  - by rewrite get_data_down.
Qed.

(** The rows of a frame split at the first row that cannot be stored, if
    there is one. *)
Lemma first_row_not_stored (l : list (list cell)) :
  (∃ ds, Forall2 (λ row d, stored row = Ok d) l ds) ∨
  (∃ good ds bad e rest,
     l = good ++ bad :: rest ∧
     Forall2 (λ row d, stored row = Ok d) good ds ∧
     stored bad = Raise e).
Proof.
  induction l as [|row l IH]; [left; by exists []|].
  destruct (stored row) as [d|e] eqn:Hrow.
  - destruct IH as [[ds Hds]|(good & ds & bad & e & rest & -> & Hds & Hbad)].
    + left. exists (d :: ds). by constructor.
    + right. exists (row :: good), (d :: ds), bad, e, rest.
      split; [done|]. split; [by constructor|done].
  - right. exists [], [], row, e, l. split; [done|]. split; [constructor|done].
Qed.

(** No partial load is ever committed.  Whatever the file and the world,
    after [load_csv_to_postgres] the committed table is the one before
    the call, or the empty table, or, and then the call has returned
    without exception, the table of all the rows of the file. *)
Theorem load_commits_all_rows_or_none file w :
  pg_committed (load_csv_to_postgres file w).2 = pg_committed w ∨
  pg_committed (load_csv_to_postgres file w).2 = Some [] ∨
  ∃ df ds,
    file = Ok df ∧
    Forall2 (λ row d, stored row = Ok d) (iterrows df) ds ∧
    (load_csv_to_postgres file w).1 = Ok tt ∧
    pg_committed (load_csv_to_postgres file w).2
      = Some (numbered (first_id w) ds).
Proof.
  destruct file as [df|e]; [|by left].
  destruct (pg_up w) eqn:Hup; [|left; by rewrite load_down].
  destruct (first_row_not_stored (iterrows df))
    as [[ds Hds]|(good & ds & bad & e & rest & Hrows & Hds & Hbad)].
  - right; right. exists df, ds. by rewrite (load_ok df ds).
  - right; left. by rewrite (load_raise df good ds bad e rest).
Qed.

Lemma numbered_ids n ds r :
  r ∈ numbered n ds → n ≤ r_id r < n + Z.of_nat (length ds).
Proof.
  revert n. induction ds as [|d ds IH]; intros n; cbn [numbered length].
  - by intros ?%elem_of_nil.
  - intros [->|Hr%IH]%elem_of_cons; cbn; lia.
Qed.

(** Loading the same rows again, when they can all be stored as
    [iterrows] hands them over, gives the same table contents under new
    ids: every id of the second load is greater than every id of the
    first, no id is handed out twice. *)
Theorem load_again_same_contents_new_ids df ds w :
  pg_up w = true →
  Forall2 (λ row d, stored row = Ok d) (iterrows df) ds →
  ∃ w1 w2 t1 t2,
    load_csv_to_postgres (Ok df) w = (Ok tt, w1) ∧
    load_csv_to_postgres (Ok df) w1 = (Ok tt, w2) ∧
    pg_committed w1 = Some t1 ∧
    pg_committed w2 = Some t2 ∧
    contents <$> t1 = ds ∧
    contents <$> t2 = ds ∧
    ∀ r1 r2, r1 ∈ t1 → r2 ∈ t2 → r_id r1 < r_id r2.
Proof.
  intros Hup Hds. eexists _, _, _, _.
  split; [by apply load_ok|]. split; [by apply load_ok|].
  split; [done|]. split; [done|].
  split; [apply numbered_contents|]. split; [apply numbered_contents|].
  intros r1 r2 H1%numbered_ids H2%numbered_ids.
  unfold first_id in H2 at 1 2. cbn in H2. lia.
Qed.


(** *** More on the filter *)

Lemma column_missing df name :
  name ∉ columns df → column df name = Raise KeyError.
Proof.
  intros Hno. unfold column.
  destruct (list_find (λ c, c = name) (columns df)) as [[j c]|] eqn:Hfind;
    [|done].
  apply list_find_Some in Hfind as (Hj & -> & _).
  destruct Hno. by eapply list_elem_of_lookup_2.
Qed.

(** The filter looks a column up only for a value other than "Todos":
    with "Todos" twice it returns its frame whatever the columns are, and
    with another value for a column that the frame does not have it
    raises [KeyError], for the first column at once and for the second
    when the first step went through. *)
Theorem df_filtrado_looks_up_constrained_columns_only data filtro1 filtro2 :
  df_filtrado data Todos Todos = Ok data ∧
  (py_eq filtro1 Todos = false → py "coluna1" ∉ columns data →
   df_filtrado data filtro1 filtro2 = Raise KeyError) ∧
  (py_eq filtro2 Todos = false → py "coluna2" ∉ columns data →
   df_filtrado data Todos filtro2 = Raise KeyError) ∧
  (∀ j1, rectangular data → column_at data (py "coluna1") j1 →
         py_eq filtro2 Todos = false → py "coluna2" ∉ columns data →
         df_filtrado data filtro1 filtro2 = Raise KeyError).
Proof.
  split; [done|]. split; [|split].
  - intros H1 Hno. unfold df_filtrado. rewrite H1. cbn [negb].
    by rewrite (column_missing _ _ Hno).
  - intros H2 Hno. unfold df_filtrado.
    change (py_eq Todos Todos) with true. cbn [negb mbind result_bind mret
      result_ret]. rewrite H2. cbn [negb]. by rewrite (column_missing _ _ Hno).
  - intros j1 Hrect Hcol H2 Hno. unfold df_filtrado.
    rewrite (filter_step data _ j1 filtro1 Hrect Hcol).
    cbn [mbind result_bind]. rewrite H2. cbn [negb].
    by rewrite column_missing.
Qed.

(** *** More on the PDF export *)

(** What [to_pdf] does with any frame: it never returns.  Without a
    column it raises [ZeroDivisionError] at the column width.  With a
    column and a text, column name or [str] of a cell, that is not Latin-1
    it raises the encoding exception of the library, at the cell of that
    text.  Otherwise the whole document is drawn and [to_pdf] raises
    [AttributeError] at its last line, where it calls [encode] on the
    [bytearray] that [output] returns. *)
Theorem to_pdf_outcome df :
  match to_pdf df with
  | Ok bytes => False
  | Raise e =>
      e = ZeroDivisionError ∧ columns df = [] ∨
      e = FPDFUnicodeEncodingException ∧ columns df ≠ [] ∧
      ¬ Forall (Forall latin1) (frame_texts df) ∨
      e = AttributeError ∧ columns df ≠ [] ∧
      Forall (Forall latin1) (frame_texts df)
  end.
Proof.
  destruct (decide (columns df = [])) as [Hnil|Hcol].
  - rewrite (to_pdf_no_column df Hnil). by left.
  - destruct (decide (Forall (Forall latin1) (frame_texts df))) as [Hall|Hno].
    + rewrite (to_pdf_drawn df Hcol Hall). right; right. done.
    + rewrite (to_pdf_refused df Hcol Hno). right; left. done.
Qed.


(** *** Sessions and roles over several runs *)

Lemma keeps_bind {A B} (m : M A) (k : A → M B) :
  keeps_session m → (∀ a, keeps_session (k a)) → keeps_session (m ≫= k).
Proof.
  intros Hm Hk w. unfold mbind, M_bind. specialize (Hm w).
  destruct (m w) as [[a|e] w']; cbn in *; [|done].
  by rewrite Hk.
Qed.

Lemma keeps_silent {A} (m : M A) : silent m → keeps_session m.
Proof. intros Hm w. by destruct (Hm w) as (_ & _ & ?). Qed.

Lemma keeps_event e : keeps_session (record_event e).
Proof. done. Qed.

Lemma keeps_lift {A} (r : result A) : keeps_session (lift r).
Proof. done. Qed.

Lemma keeps_ret {A} (a : A) : keeps_session (mret a : M A).
Proof. done. Qed.

Lemma keeps_commit conn : keeps_session (commit conn).
Proof. intros w. unfold commit. by destruct (pg_conns w !! conn). Qed.

Lemma keeps_for_each {A} (l : list A) (body : A → M unit) :
  (∀ x, keeps_session (body x)) → keeps_session (for_each l body).
Proof.
  intros Hbody. induction l as [|x l IH]; [done|].
  cbn [for_each]. apply keeps_bind; [apply Hbody|by intros _].
Qed.

Lemma keeps_load file : keeps_session (load_csv_to_postgres file).
Proof.
  unfold load_csv_to_postgres, get_connection, cursor, cursor_close.
  apply keeps_bind; [apply keeps_event|]. intros _.
  apply keeps_bind; [apply keeps_lift|]. intros df.
  apply keeps_bind; [apply keeps_silent, silent_connect|]. intros conn.
  apply keeps_bind; [apply keeps_ret|]. intros cur.
  apply keeps_bind; [apply keeps_silent, silent_execute|]. intros _.
  apply keeps_bind; [apply keeps_commit|]. intros _.
  apply keeps_bind; [apply keeps_silent, silent_execute|]. intros _.
  apply keeps_bind; [apply keeps_commit|]. intros _.
  apply keeps_bind.
  { apply keeps_for_each. intros row.
    apply keeps_bind; [apply keeps_lift|]. intros p0.
    apply keeps_bind; [apply keeps_lift|]. intros p1.
    apply keeps_bind; [apply keeps_lift|]. intros p2.
    apply keeps_silent, silent_execute. }
  intros _.
  apply keeps_bind; [apply keeps_commit|]. intros _.
  apply keeps_bind; [apply keeps_ret|]. intros _.
  done.
Qed.

Lemma keeps_get_data : keeps_session get_data.
Proof.
  intros w. destruct (pg_up w) eqn:Hup.
  - destruct (pg_committed w) as [rs|] eqn:Hrs.
    + by rewrite (get_data_ok rs).
    + by rewrite get_data_undefined.
  - by rewrite get_data_down.
Qed.

Lemma keeps_check_role : keeps_session check_role.
Proof. intros w. by rewrite check_role_reads_session. Qed.

Lemma login_logged_in users i w :
  logged_in (st_session w) = Some true → login users i w = (Ok tt, w).
Proof. intros Hin. pose proof (login_cases users i w) as Hl. by rewrite Hin in Hl. Qed.

(** What [login] lets through.  [login] has three outcomes and no other.
    It returns, changing nothing, exactly in a session that is already
    logged in.  It raises the rerun exception exactly when the session is
    not logged in, the button was pressed and the typed pair is an entry
    of [users]; the session is then logged in under the typed name.  It
    stops the run, raising the exception of [st.stop], exactly when the
    session is not logged in and the button was not pressed or the typed
    pair is no entry of [users]; the session is then marked as not logged
    in and keeps its identity.  In every case the table is left as it
    is. *)
Theorem login_passes_only_a_logged_in_session users i w :
  (logged_in (st_session w) = Some true ∧
   login users i w = (Ok tt, w)
   ∨
   logged_in (st_session w) ≠ Some true ∧ known users i ∧
   (login users i w).1 = Raise RerunException ∧
   st_session (login users i w).2 =
     {| logged_in := Some true; user := Some (usuario i) |}
   ∨
   logged_in (st_session w) ≠ Some true ∧ ¬ known users i ∧
   (login users i w).1 = Raise StopException ∧
   st_session (login users i w).2 =
     {| logged_in := Some false; user := user (st_session w) |}) ∧
  pg_committed (login users i w).2 = pg_committed w.
Proof.
  pose proof (login_cases users i w) as Hl.
  destruct (logged_in (st_session w)) as [[|]|] eqn:Hin.
  1: { rewrite Hl. split; [by left|done]. }
  all: destruct Hl as (e & w' & -> & Hcom & _ & Hcase); cbn [fst snd];
    (split; [|done]); right;
    (destruct Hcase as [(-> & Hb & Hu & Hs)|(-> & Hbad & Hs)];
     [left|right]; (split; [done|]); (split; [|done]);
     [done|intros [Hb Hu]; destruct Hbad; congruence]).
Qed.


(** In a session that is logged in, a run of [main] leaves the session as
    it is, however the run ends. *)
Lemma main_logged_in_keeps_session users to_excel i w :
  logged_in (st_session w) = Some true →
  st_session (main users to_excel i w).2 = st_session w.
Proof.
  intros Hin. unfold main.
  erewrite bind_Ok by reflexivity.
  erewrite bind_Ok by reflexivity.
  erewrite bind_Ok by reflexivity.
  erewrite bind_Ok by (by apply login_logged_in).
  match goal with |- st_session (?m ?w3).2 = _ =>
    assert (Hk : keeps_session m); [|by rewrite Hk] end.
  apply keeps_bind; [apply keeps_check_role|]. intros role.
  apply keeps_bind; [repeat case_bool_decide; apply keeps_event|]. intros _.
  apply keeps_bind.
  { case_bool_decide; [|apply keeps_ret].
    destruct (upload i); [|apply keeps_ret].
    apply keeps_bind; [apply keeps_load|]. intros _. apply keeps_event. }
  intros _.
  apply keeps_bind; [apply keeps_get_data|]. intros data.
  apply keeps_bind; [apply keeps_event|]. intros _.
  apply keeps_bind; [apply keeps_lift|]. intros coluna1.
  apply keeps_bind; [apply keeps_lift|]. intros coluna2.
  apply keeps_bind; [apply keeps_lift|]. intros df.
  apply keeps_bind; [apply keeps_event|]. intros _.
  apply keeps_bind; [apply keeps_event|]. intros _.
  apply keeps_bind; [apply keeps_event|]. intros _.
  apply keeps_bind; [apply keeps_event|]. intros _.
  apply keeps_bind; [apply keeps_lift|]. intros excel_data.
  apply keeps_bind; [apply keeps_event|]. intros _.
  apply keeps_bind; [apply keeps_event|]. intros _.
  apply keeps_bind; [apply keeps_lift|]. intros pdf_data.
  apply keeps_event.
Qed.

Lemma role_of_admin u : role_of u = py "admin" ↔ u = py "admin".
Proof.
  rewrite role_of_cases. repeat case_decide; subst; split; try done.
Qed.

(** A run whose session is not that of a logged-in admin does not call
    the ingestion. *)
Lemma main_no_ingest users to_excel i w :
  (logged_in (st_session w) = Some true →
   user (st_session w) ≠ Some (py "admin")) →
  ∃ evs, log (main users to_excel i w).2 = log w ++ evs ∧ ingest_call ∉ evs.
Proof.
  intros Hno.
  destruct (decide (logged_in (st_session w) = Some true)) as [Hin|Hout].
  - destruct (user (st_session w)) as [u|] eqn:Hu.
    + assert (Hrole : role_of u ≠ py "admin").
      { rewrite role_of_admin. intros ->. by apply Hno. }
      by destruct (quiet_main users to_excel u i Hrole w Hu) as (Hlog & _).
    + unfold main.
      erewrite bind_Ok by reflexivity.
      erewrite bind_Ok by reflexivity.
      erewrite bind_Ok by reflexivity.
      erewrite bind_Ok by (by apply login_logged_in).
      erewrite bind_Raise
        by (rewrite check_role_reads_session; cbn; by rewrite Hu).
      cbn. eexists. split; [by rewrite <- !app_assoc|].
      repeat (apply not_elem_of_cons; split; [done|]). apply not_elem_of_nil.
  - destruct (main_not_logged_in users to_excel i w Hout)
      as (e & w' & -> & _ & Hlog & _).
    done.
Qed.

(** From a world whose session is not logged in and whose log has no
    ingestion, no sequence of runs calls the ingestion unless one of the
    runs signs in as admin with the password that [users] has for admin. *)
Theorem ingestion_needs_an_admin_sign_in users to_excel inputs w :
  logged_in (st_session w) ≠ Some true →
  ingest_call ∉ log w →
  ingest_call ∈ log (run_all users to_excel inputs w) →
  Exists (admin_sign_in users) inputs.
Proof.
  intros Hout.
  assert (Hinv : logged_in (st_session w) = Some true →
                 user (st_session w) ≠ Some (py "admin")) by done.
  clear Hout. revert w Hinv.
  induction inputs as [|i inputs IH]; intros w Hinv Hlog Hrun; [done|].
  cbn in Hrun. change (foldl _ ?w0 inputs) with
    (run_all users to_excel inputs w0) in Hrun.
  destruct (main_no_ingest users to_excel i w Hinv) as (evs & Hevs & Hnew).
  assert (Hlog' : ingest_call ∉ log (main users to_excel i w).2).
  { rewrite Hevs, elem_of_app. tauto. }
  destruct (decide (logged_in (st_session w) = Some true)) as [Hin|Hout].
  - apply Exists_cons_tl. apply (IH (main users to_excel i w).2); [|done..].
    rewrite main_logged_in_keeps_session by done. exact Hinv.
  - destruct (main_not_logged_in users to_excel i w Hout)
      as (e & w' & Hmain & _ & _ & [(_ & Hb & Hu & Hs)|(_ & _ & Hs)]);
      rewrite Hmain in *; cbn [snd] in *.
    + destruct (decide (usuario i = py "admin")) as [Hname|Hname].
      * apply Exists_cons_hd. unfold admin_sign_in. by rewrite <- Hname.
      * apply Exists_cons_tl. apply (IH w'); [|done..].
        rewrite Hs. cbn. by intros _ [= ?].
    + apply Exists_cons_tl. apply (IH w'); [|done..]. by rewrite Hs.
Qed.

(** Over any sequence of runs, a session that is logged in names an
    identity that has an entry in [users]; [check_role] then returns a
    role for it. *)
Theorem sessions_name_an_identity_of_users users to_excel inputs w :
  session_ok users (st_session w) →
  session_ok users (st_session (run_all users to_excel inputs w)) ∧
  (logged_in (st_session (run_all users to_excel inputs w)) = Some true →
   succeeds (check_role (run_all users to_excel inputs w)).1).
Proof.
  intros Hok.
  assert (Hall : session_ok users
                   (st_session (run_all users to_excel inputs w))).
  { revert w Hok. induction inputs as [|i inputs IH]; intros w Hok; [done|].
    cbn. apply IH.
    destruct (decide (logged_in (st_session w) = Some true)) as [Hin|Hout].
    - by rewrite main_logged_in_keeps_session.
    - destruct (main_not_logged_in users to_excel i w Hout)
        as (e & w' & -> & _ & _ & [(_ & Hb & Hu & Hs)|(_ & _ & Hs)]);
        cbn [snd]; rewrite Hs.
      + intros _. exists (usuario i). by rewrite Hu.
      + done. }
  split; [done|]. intros Hin. destruct (Hall Hin) as (u & Hu & _).
  rewrite check_role_reads_session. cbn. rewrite Hu. by eexists.
Qed.

(** [check_role] returns one of the three roles, and the role admin for
    the identity admin only. *)
Theorem check_role_returns_one_of_three_roles w role :
  (check_role w).1 = Ok role →
  role ∈ [py "admin"; py "analyst"; py "reader"] ∧
  (role = py "admin" ↔ user (st_session w) = Some (py "admin")).
Proof.
  rewrite check_role_reads_session. cbn.
  destruct (user (st_session w)) as [u|]; [|done]. intros [= <-].
  split.
  - rewrite role_of_cases. repeat case_decide; set_solver.
  - rewrite role_of_admin. split; [by intros ->|by intros [= ->]].
Qed.


(** *** Runs of [main] on a table without rows or without relation *)

Lemma role_info_shows role :
  ∃ s, ∀ w,
    (if bool_decide (role = py "reader") then
       show "sidebar.info: Modo leitura. Permissões restritas."
     else if bool_decide (role = py "analyst") then
       show "sidebar.info: Modo analista. Pode filtrar e exportar."
     else
       show "sidebar.info: Modo administrador. Controle total.") w
    = (Ok tt, set_log (log w ++ [Show s]) w).
Proof. repeat case_bool_decide; by eexists. Qed.

(** The statement of [main] that ingests, run on an empty table or with
    a file without rows: it returns, and the table is empty. *)
Lemma ingest_gate_on_empty_table u i w :
  pg_up w = true →
  (pg_committed w = Some [] ∧ (u ≠ py "admin" ∨ upload i = None)) ∨
  (u = py "admin" ∧ ∃ df, upload i = Some (Ok df) ∧ rows df = []) →
  ∃ w',
    (if bool_decide (role_of u = py "admin") then
       match upload i with
       | Some file =>
           load_csv_to_postgres file ;;
           show "success: Dados importados com sucesso!"
       | None => mret tt
       end
     else mret tt) w = (Ok tt, w') ∧
    pg_up w' = true ∧ pg_committed w' = Some [].
Proof.
  intros Hup [[Hempty Hno]|(-> & df & Hfile & Hrows)].
  - destruct Hno as [Hne|Hnone].
    + rewrite bool_decide_eq_false_2 by (by rewrite role_of_admin).
      by exists w.
    + rewrite Hnone.
      destruct (bool_decide (role_of u = py "admin")); by exists w.
  - rewrite bool_decide_eq_true_2 by (by rewrite role_of_admin).
    rewrite Hfile.
    erewrite bind_Ok
      by (apply (load_ok df []); [done|unfold iterrows; rewrite Hrows; constructor]).
    by eexists.
Qed.

(** While the table has no row the dashboard cannot be drawn: for a
    session that is logged in and a reachable server, a run of [main]
    raises [KeyError] at the first selectbox, both when the table is empty
    and the run does not ingest (the role is not admin, or no file is
    uploaded) and when an admin uploads a file without rows, which is
    imported first. *)
Theorem main_raises_KeyError_while_the_table_is_empty users to_excel i w u :
  logged_in (st_session w) = Some true →
  user (st_session w) = Some u →
  pg_up w = true →
  (pg_committed w = Some [] ∧ (u ≠ py "admin" ∨ upload i = None)) ∨
  (u = py "admin" ∧ ∃ df, upload i = Some (Ok df) ∧ rows df = []) →
  (main users to_excel i w).1 = Raise KeyError.
Proof.
  intros Hin Hu Hup Hcase. unfold main.
  erewrite bind_Ok by reflexivity.
  erewrite bind_Ok by reflexivity.
  erewrite bind_Ok by reflexivity.
  erewrite bind_Ok by (by apply login_logged_in).
  erewrite bind_Ok
    by (rewrite check_role_reads_session; cbn; rewrite Hu; reflexivity).
  destruct (role_info_shows (role_of u)) as [s Hs].
  erewrite bind_Ok by apply Hs.
  match goal with |- (mbind _ _ ?w0).1 = _ =>
    destruct (ingest_gate_on_empty_table u i w0) as (w' & Hgate & Hup' & Hempty')
  end; [done|exact Hcase|].
  erewrite bind_Ok by exact Hgate.
  erewrite bind_Ok by (by apply (get_data_ok [])).
  erewrite bind_Ok by reflexivity.
  by erewrite bind_Raise by reflexivity.
Qed.

(** Before the first ingestion the relation does not exist: for a session
    that is logged in, a reachable server and a run that does not ingest,
    [main] raises [UndefinedTable] in [get_data] and returns with the
    connection of the query still open. *)
Theorem main_raises_UndefinedTable_before_the_first_load users to_excel i w u :
  logged_in (st_session w) = Some true →
  user (st_session w) = Some u →
  pg_up w = true →
  pg_committed w = None →
  u ≠ py "admin" ∨ upload i = None →
  (main users to_excel i w).1 = Raise UndefinedTable ∧
  pg_conns (main users to_excel i w).2
    = <[fresh (dom (pg_conns w)) := {| pending := None; fetched := None |}]>
        (pg_conns w).
Proof.
  intros Hin Hu Hup Hnone Hno. unfold main.
  erewrite bind_Ok by reflexivity.
  erewrite bind_Ok by reflexivity.
  erewrite bind_Ok by reflexivity.
  erewrite bind_Ok by (by apply login_logged_in).
  erewrite bind_Ok
    by (rewrite check_role_reads_session; cbn; rewrite Hu; reflexivity).
  destruct (role_info_shows (role_of u)) as [s Hs].
  erewrite bind_Ok by apply Hs.
  erewrite bind_Ok.
  2: { destruct Hno as [Hne|Hnoup].
       - rewrite bool_decide_eq_false_2 by (by rewrite role_of_admin).
         reflexivity.
       - rewrite Hnoup.
         destruct (bool_decide (role_of u = py "admin")); reflexivity. }
  by erewrite bind_Raise by (by apply get_data_undefined).
Qed.

(** *** A run of [main] that draws the dashboard *)

(** A frame of fetched rows holds text: its rows are handed over as they
    are. *)
Lemma fetched_rows_iterrows df :
  Forall (λ row, ∃ r, row = cells_of_record r) (rows df) →
  iterrows df = rows df.
Proof.
  intros Hrows. destruct (rows df) as [|row l] eqn:Hdf.
  - unfold iterrows. by rewrite Hdf.
  - rewrite <- Hdf. apply iterrows_object.
    apply Forall_cons in Hrows as [[r ->] _].
    unfold values_dtype. by rewrite Hdf.
Qed.

Lemma frame_texts_filter (P : list cell → Prop) `{∀ x, Decision (P x)} rs :
  Forall (Forall latin1) (frame_texts (pd_DataFrame (dict_of_record <$> rs))) →
  Forall (Forall latin1)
         (frame_texts
            {| columns := columns (pd_DataFrame (dict_of_record <$> rs));
               rows := filter P (rows (pd_DataFrame (dict_of_record <$> rs))) |}).
Proof.
  assert (Hall : Forall (λ row, ∃ r, row = cells_of_record r)
                        (rows (pd_DataFrame (dict_of_record <$> rs)))).
  { rewrite pd_DataFrame_rows. apply Forall_fmap, Forall_forall.
    intros r _. by exists r. }
  unfold frame_texts.
  rewrite (fetched_rows_iterrows _ Hall).
  rewrite (fetched_rows_iterrows {| columns := _; rows := filter P _ |}).
  2: { cbn [rows]. rewrite Forall_forall in *.
       intros row [_ Hrow]%list_elem_of_filter. by apply Hall. }
  cbn [columns rows]. rewrite !Forall_app.
  intros [Hcols Hcells]. split; [done|].
  rewrite Forall_fmap in *. rewrite Forall_concat in *.
  rewrite Forall_forall in *. intros row [_ Hrow]%list_elem_of_filter.
  by apply Hcells.
Qed.

(** The statement of [main] that ingests, when the table has rows
    afterwards. *)
Lemma ingest_gate_with_rows u i w rs :
  pg_up w = true →
  (pg_committed w = Some rs ∧ (u ≠ py "admin" ∨ upload i = None)) ∨
  (u = py "admin" ∧
   ∃ df ds, upload i = Some (Ok df) ∧
            Forall2 (λ row d, stored row = Ok d) (iterrows df) ds ∧
            rs = numbered (first_id w) ds) →
  ∃ w',
    (if bool_decide (role_of u = py "admin") then
       match upload i with
       | Some file =>
           load_csv_to_postgres file ;;
           show "success: Dados importados com sucesso!"
       | None => mret tt
       end
     else mret tt) w = (Ok tt, w') ∧
    pg_up w' = true ∧ pg_committed w' = Some rs ∧ pg_conns w' = pg_conns w.
Proof.
  intros Hup [[Hrs Hno]|(-> & df & ds & Hfile & Hds & ->)].
  - destruct Hno as [Hne|Hnone].
    + rewrite bool_decide_eq_false_2 by (by rewrite role_of_admin).
      by exists w.
    + rewrite Hnone.
      destruct (bool_decide (role_of u = py "admin")); by exists w.
  - rewrite bool_decide_eq_true_2 by (by rewrite role_of_admin).
    rewrite Hfile.
    erewrite bind_Ok by (by apply (load_ok df ds)).
    by eexists.
Qed.

(** The dashboard is drawn up to the PDF export, which fails.  For a
    session that is logged in and a reachable server, when the table has
    a row at the time it is read (it had rows and the run does not
    ingest, or an admin uploads a file whose rows, as [iterrows] hands
    them over, can all be stored), every text of the table is Latin-1 and
    the spreadsheet writer does not raise, a run of [main] gets to
    [to_pdf], whatever is selected in the two selectboxes, and ends there
    in [AttributeError]; by then the table holds those rows and no
    connection is left open. *)
Theorem main_ends_in_the_pdf_export users to_excel i w u rs :
  logged_in (st_session w) = Some true →
  user (st_session w) = Some u →
  pg_up w = true →
  (pg_committed w = Some rs ∧ (u ≠ py "admin" ∨ upload i = None)) ∨
  (u = py "admin" ∧
   ∃ df ds, upload i = Some (Ok df) ∧
            Forall2 (λ row d, stored row = Ok d) (iterrows df) ds ∧
            rs = numbered (first_id w) ds) →
  rs ≠ [] →
  Forall (Forall latin1) (frame_texts (pd_DataFrame (dict_of_record <$> rs))) →
  (∀ df, succeeds (to_excel df)) →
  (main users to_excel i w).1 = Raise AttributeError ∧
  last (log (main users to_excel i w).2) = Some (Call "to_pdf") ∧
  pg_committed (main users to_excel i w).2 = Some rs ∧
  pg_conns (main users to_excel i w).2 = pg_conns w.
Proof.
  intros Hin Hu Hup Hcase Hne Hlatin Hexcel. unfold main.
  erewrite bind_Ok by reflexivity.
  erewrite bind_Ok by reflexivity.
  erewrite bind_Ok by reflexivity.
  erewrite bind_Ok by (by apply login_logged_in).
  erewrite bind_Ok
    by (rewrite check_role_reads_session; cbn; rewrite Hu; reflexivity).
  destruct (role_info_shows (role_of u)) as [s Hs].
  erewrite bind_Ok by apply Hs.
  match goal with |- (mbind _ _ ?w0).1 = _ ∧ _ =>
    destruct (ingest_gate_with_rows u i w0 rs) as (w' & Hgate & Hup' & Hrs' & Hconns')
  end; [done|exact Hcase|].
  cbn in Hconns'.
  erewrite bind_Ok by exact Hgate.
  erewrite bind_Ok by (by apply (get_data_ok rs)).
  erewrite bind_Ok by reflexivity.
  destruct (fetched_frame_shape rs Hne) as (Hrect & Hc1 & Hc2).
  destruct (column_cells _ _ _ Hrect Hc1) as (cs1 & Hcs1 & _).
  destruct (column_cells _ _ _ Hrect Hc2) as (cs2 & Hcs2 & _).
  rewrite Hcs1. erewrite bind_Ok by reflexivity.
  rewrite Hcs2. erewrite bind_Ok by reflexivity.
  rewrite (df_filtrado_ok _ 1 2 _ _ Hrect Hc1 Hc2).
  erewrite bind_Ok by reflexivity.
  erewrite bind_Ok by reflexivity.
  erewrite bind_Ok by reflexivity.
  erewrite bind_Ok by reflexivity.
  erewrite bind_Ok by reflexivity.
  match goal with |- context [to_excel ?df] =>
    destruct (Hexcel df) as [excel_data Hx]; rewrite Hx;
    rewrite (to_pdf_drawn df);
      [|by rewrite pd_DataFrame_columns|by apply frame_texts_filter]
  end.
  erewrite bind_Ok by reflexivity.
  erewrite bind_Ok by reflexivity.
  erewrite bind_Ok by reflexivity.
  erewrite bind_Raise by reflexivity.
  cbn. rewrite Hrs', Hconns'. split; [done|]. split; [|done].
  by rewrite last_snoc.
Qed.



(** *** The values offered by a selectbox *)


Lemma elem_of_unique s c : c ∈ unique s ↔ c ∈ s.
Proof.
  induction s as [|d s IH]; [done|]. cbn [unique].
  rewrite !elem_of_cons, list_elem_of_filter, IH.
  destruct (decide (c = d)); tauto.
Qed.

Lemma NoDup_unique s : NoDup (unique s).
Proof.
  induction s as [|d s IH]; [constructor|]. cbn [unique].
  apply NoDup_cons. split.
  - rewrite list_elem_of_filter. by intros [Hne _].
  - by apply NoDup_filter.
Qed.

(** The options of a selectbox of [main] are "Todos" and then every value
    of the column once, in the order of first appearance; whatever
    position is chosen, the selected value is "Todos" or a value of the
    column. *)
Lemma selectbox_value cs k :
  selectbox Todos (unique cs) k = Todos ∨ selectbox Todos (unique cs) k ∈ cs.
Proof.
  unfold selectbox. destruct k as [|k]; [by left|]. cbn.
  destruct (unique cs !! k) as [c|] eqn:Hk; [|by left].
  right. apply elem_of_unique. by eapply list_elem_of_lookup_2.
Qed.

(** A value selected in the first selectbox never empties the view on its
    own: on a frame with rows that has the column coluna1, every value of
    which equals itself by [==] (as the texts that [get_data] returns do,
    and every value but a NaN), the view filtered by the value chosen
    from the options of that column, the second filter being "Todos", has
    a row; and the options hold every value of the column exactly
    once. *)
Theorem selected_value_keeps_a_row data j cs k :
  rectangular data →
  column_at data (py "coluna1") j →
  column data (py "coluna1") = Ok cs →
  Forall (λ c, py_equal c c) cs →
  rows data ≠ [] →
  NoDup (unique cs) ∧
  (∀ c, c ∈ unique cs ↔ c ∈ cs) ∧
  ∃ out,
    df_filtrado data (selectbox Todos (unique cs) k) Todos = Ok out ∧
    columns out = columns data ∧
    rows out ≠ [].
Proof.
  intros Hrect Hcol Hcs Hrefl Hrows.
  split; [apply NoDup_unique|]. split; [apply elem_of_unique|].
  unfold df_filtrado.
  rewrite (filter_step data _ j _ Hrect Hcol).
  eexists. split; [reflexivity|]. split; [done|]. cbn [rows].
  destruct (column_cells data _ j Hrect Hcol) as (cs' & Hcs' & Hcells).
  rewrite Hcs in Hcs'. injection Hcs' as <-.
  destruct (selectbox_value cs k) as [->|Hsel].
  - rewrite filter_all; [done|]. intros row. done.
  - pose proof (proj1 (Forall_forall _ _) Hrefl _ Hsel) as Hself.
    apply list_elem_of_lookup_1 in Hsel as [n Hn].
    destruct (Forall2_lookup_r _ _ _ _ _ Hcells Hn) as (row & Hrow & Hc).
    intros Hnil.
    assert (Hmem : row ∈ filter
              (λ row, keeps j (selectbox Todos (unique cs) k) row = true)
              (rows data)).
    { apply list_elem_of_filter. split; [|by eapply list_elem_of_lookup_2].
      unfold keeps, cell_matches. rewrite Hc, Hself.
      by rewrite orb_true_r. }
    rewrite Hnil in Hmem. by apply elem_of_nil in Hmem.
Qed.


End Properties.

(** ** Properties of [send_email] *)

(** What a call of [send_email] does with the SMTP library, whatever the
    library answers.  Every session it opens is closed again when it
    returns or raises.  A port that is no integer raises [ValueError]
    before any call.  Otherwise the calls are, in this order and each at
    most once: the constructor; then, when it has returned, [starttls];
    then, when that has returned, [login] with the user and the password
    of the environment; then, when that has returned, [send_message] with
    the message built from the arguments; and, once the constructor has
    returned, the exit of the with block as the last call.  Nothing is
    tried again.  The call raises the exception of the constructor, or
    else the exception of the exit, or else the exception of the first
    call of the block that raised; it returns normally exactly when all
    five calls did.  ([take n] of the script is its first [n] calls.) *)
Theorem send_email_session int_of_str reply env to_email subject body data
    filename m r m' :
  send_email int_of_str reply env to_email subject body data filename m
    = (r, m') →
  sessions m' = sessions m ∧
  ((r = Failed ValueError ∧ calls m' = calls m ∧
    ∃ s, SMTP_PORT env = Some s ∧ int_of_str s = None) ∨
   (∃ port msg,
      (smtp_port_of int_of_str env m).1 = Sent port ∧
      msg = build_message env to_email subject body data filename ∧
      ((∃ e, reply (calls m) (SMTP (SMTP_SERVER env) port) = Some e ∧
             r = Failed e ∧
             calls m' = calls m ++ take 1 (mail_script env port msg)) ∨
       (reply (calls m) (SMTP (SMTP_SERVER env) port) = None ∧
        ((∃ e, reply (calls m ++ take 1 (mail_script env port msg)) starttls
                 = Some e ∧
               calls m' = calls m ++ take 2 (mail_script env port msg)
                                  ++ [smtp_exit] ∧
               r = after_exit
                     (reply (calls m ++ take 2 (mail_script env port msg))
                            smtp_exit)
                     (Failed e)) ∨
         (reply (calls m ++ take 1 (mail_script env port msg)) starttls = None ∧
          ((∃ e, reply (calls m ++ take 2 (mail_script env port msg))
                       (smtp_login (SMTP_USER env) (SMTP_PASSWORD env))
                   = Some e ∧
                 calls m' = calls m ++ take 3 (mail_script env port msg)
                                    ++ [smtp_exit] ∧
                 r = after_exit
                       (reply (calls m ++ take 3 (mail_script env port msg))
                              smtp_exit)
                       (Failed e)) ∨
           (reply (calls m ++ take 2 (mail_script env port msg))
                  (smtp_login (SMTP_USER env) (SMTP_PASSWORD env)) = None ∧
            calls m' = calls m ++ mail_script env port msg ++ [smtp_exit] ∧
            r = after_exit
                  (reply (calls m ++ mail_script env port msg) smtp_exit)
                  (match reply (calls m ++ take 3 (mail_script env port msg))
                               (send_message msg) with
                   | Some e => Failed e
                   | None => Sent tt
                   end) ∧
            (r = Sent tt ↔
             reply (calls m ++ take 3 (mail_script env port msg))
                   (send_message msg) = None ∧
             reply (calls m ++ mail_script env port msg) smtp_exit
               = None))))))))).
Proof.
  unfold send_email, smtp_port_of, with_SMTP, leaving, SMTP_new, SMTP_exit, call.
  unfold mbind, Mail_bind, mail_script, after_exit. cbn [take].
  destruct (SMTP_PORT env) as [s|] eqn:Hport;
    [destruct (int_of_str s) as [p0|] eqn:Hint|]; cbn [fst snd].
  2: { intros [= <- <-]. split; [done|]. left. split; [done|].
       split; [done|]. by exists s. }
  all: match goal with |- context [SMTP _ ?p] => set (port := p) end.
  all: destruct (reply (calls m) (SMTP (SMTP_SERVER env) port)) as [e0|] eqn:H0;
    cbn [fst snd sessions calls].
  all: try (intros [= <- <-]; split; [done|]; right; exists port;
            eexists; split; [done|]; split; [done|]; left; by exists e0).
  all: destruct (reply (calls m ++ [SMTP (SMTP_SERVER env) port]) starttls)
         as [e1|] eqn:H1; cbn [fst snd sessions calls];
       rewrite <- ?app_assoc; cbn [app].
  all: try (destruct (reply _ smtp_exit) eqn:Hx;
            cbn [fst snd sessions calls] in Hx |- *;
            rewrite <- ?app_assoc in Hx; rewrite <- ?app_assoc;
            cbn [app] in Hx |- *;
            intros [= <- <-]; (split; [done|]); right; exists port;
            eexists; (split; [done|]); (split; [done|]); right;
            (split; [done|]); left; exists e1; by rewrite Hx).
  all: destruct (reply (calls m ++ [SMTP (SMTP_SERVER env) port; starttls])
                   (smtp_login (SMTP_USER env) (SMTP_PASSWORD env)))
         as [e2|] eqn:H2; cbn [fst snd sessions calls];
       rewrite <- ?app_assoc; cbn [app].
  all: try (destruct (reply _ smtp_exit) eqn:Hx;
            cbn [fst snd sessions calls] in Hx |- *;
            rewrite <- ?app_assoc in Hx; rewrite <- ?app_assoc;
            cbn [app] in Hx |- *;
            intros [= <- <-]; (split; [done|]); right; exists port;
            eexists; (split; [done|]); (split; [done|]); right;
            (split; [done|]); right; (split; [done|]); left; exists e2;
            by rewrite Hx).
  all: destruct (reply _ (send_message _)) as [e3|] eqn:H3;
       cbn [fst snd sessions calls]; rewrite <- ?app_assoc; cbn [app];
       destruct (reply _ smtp_exit) as [e4|] eqn:H4;
       cbn [fst snd sessions calls] in H4 |- *;
       rewrite <- ?app_assoc in H4; rewrite <- ?app_assoc;
       cbn [app] in H4 |- *.
  all: intros [= <- <-]; (split; [done|]); right; exists port; eexists;
       (split; [done|]); (split; [done|]); right;
       (split; [done|]); right; (split; [done|]); right; (split; [done|]);
       (split; [done|]); rewrite ?H3, ?H4; (split; [done|]).
  all: split; [try done; intros [=]|intros [? ?]; try done; congruence].
Qed.

(** ** Runs of the script in the concrete configuration *)

Import Demo.



(** C3: the theorem at a table of one row. *)
Lemma get_data_reads_table_in_order_witness :
  pg_up (world_of (Some old_table) (session_of "reader")) = true ∧
  pg_committed (world_of (Some old_table) (session_of "reader"))
    = Some old_table ∧
  ∃ df w',
    get_data (world_of (Some old_table) (session_of "reader")) = (Ok df, w') ∧
    rows df = cells_of_record <$> old_table ∧
    (old_table ≠ [] → columns df = fetched_columns) ∧
    pg_committed w' = Some old_table ∧
    pg_conns w' = pg_conns (world_of (Some old_table) (session_of "reader")).
Proof.
  split; [reflexivity|]. split; [reflexivity|].
  apply (get_data_reads_table_in_order
           (world_of (Some old_table) (session_of "reader")) old_table);
    reflexivity.
Defined.

(** C3 as stated fails: the frame read from a table of one row names four
    columns, id first, not the three columns coluna1, coluna2, valor. *)
Lemma get_data_names_four_columns :
  (get_data (world_of (Some old_table) (session_of "reader"))).1
    = Ok {| columns := [py "id"; py "coluna1"; py "coluna2"; py "valor"];
            rows := [[CInt 1; text "old"; text "o"; CNum (numeric_of_int 7)]] |} ∧
  [py "id"; py "coluna1"; py "coluna2"; py "valor"]
    ≠ [py "coluna1"; py "coluna2"; py "valor"].
Proof. split; [reflexivity|discriminate]. Qed.

(** C2: the theorem at the frame of the three rows a,x,1 / b,y,2 / a,y,3
    as [get_data] returns it, filtered on coluna1 = "a". *)
Lemma df_filtrado_keeps_matching_rows_witness :
  rectangular (pd_DataFrame (dict_of_record <$>
                 [rec 1 "a" "x" 1; rec 2 "b" "y" 2; rec 3 "a" "y" 3])) ∧
  column_at (pd_DataFrame (dict_of_record <$>
               [rec 1 "a" "x" 1; rec 2 "b" "y" 2; rec 3 "a" "y" 3]))
            (py "coluna1") 1 ∧
  column_at (pd_DataFrame (dict_of_record <$>
               [rec 1 "a" "x" 1; rec 2 "b" "y" 2; rec 3 "a" "y" 3]))
            (py "coluna2") 2 ∧
  ∃ out,
    df_filtrado (pd_DataFrame (dict_of_record <$>
                   [rec 1 "a" "x" 1; rec 2 "b" "y" 2; rec 3 "a" "y" 3]))
                (text "a") Todos = Ok out ∧
    rows out = [cells_of_record (rec 1 "a" "x" 1);
                cells_of_record (rec 3 "a" "y" 3)].
Proof.
  split; [repeat constructor|]. split; [reflexivity|]. split; [reflexivity|].
  destruct (df_filtrado_keeps_matching_rows
              (pd_DataFrame (dict_of_record <$>
                 [rec 1 "a" "x" 1; rec 2 "b" "y" 2; rec 3 "a" "y" 3]))
              1 2 (text "a") Todos)
    as (out & Hout & _ & Hrows & _).
  - repeat constructor.
  - reflexivity.
  - reflexivity.
  - exists out. split; [exact Hout|]. rewrite Hrows. reflexivity.
Defined.

(** C4: the theorem at an analyst who uploads a file. *)
Lemma main_ingests_only_for_admin_witness :
  (check_role (world_of (Some old_table) (session_of "analyst"))).1
    = Ok (py "analyst") ∧
  py "analyst" ≠ py "admin" ∧
  (∃ evs,
     log (main users to_excel (upload_of csv_abc)
            (world_of (Some old_table) (session_of "analyst"))).2
       = log (world_of (Some old_table) (session_of "analyst")) ++ evs ∧
     ingest_call ∉ evs) ∧
  pg_committed (main users to_excel (upload_of csv_abc)
                  (world_of (Some old_table) (session_of "analyst"))).2
    = pg_committed (world_of (Some old_table) (session_of "analyst")).
Proof.
  split; [reflexivity|]. split; [discriminate|].
  apply (main_ingests_only_for_admin users to_excel (upload_of csv_abc)
           (world_of (Some old_table) (session_of "analyst")) (py "analyst")).
  - reflexivity.
  - discriminate.
Defined.

(** C5: the theorem at the default identities.  An identity that
    [users] does not know is stopped in [login]; "admin" with its
    password is recorded, and the authorisation of the next run returns
    the role admin. *)
Lemma authorize_rejects_unknown_identities_witness :
  logged_in (st_session (world_of (Some old_table) fresh_session))
    ≠ Some true ∧
  ¬ known users (sign_in "mallory" "guess") ∧
  (authorize users (sign_in "mallory" "guess")
     (world_of (Some old_table) fresh_session)).1 = Raise StopException ∧
  (main users to_excel (sign_in "mallory" "guess")
     (world_of (Some old_table) fresh_session)).1 = Raise StopException ∧
  pg_committed (main users to_excel (sign_in "mallory" "guess")
                  (world_of (Some old_table) fresh_session)).2
    = pg_committed (world_of (Some old_table) fresh_session) ∧
  known users (sign_in "admin" "admin_pass") ∧
  (authorize users no_widget
     (authorize users (sign_in "admin" "admin_pass")
        (world_of (Some old_table) fresh_session)).2).1 = Ok (py "admin").
Proof.
  assert (Hunknown : ¬ known users (sign_in "mallory" "guess")).
  { intros [_ Hu]. by vm_compute in Hu. }
  assert (Hknown : known users (sign_in "admin" "admin_pass")).
  { split; [reflexivity|]. by vm_compute. }
  split; [discriminate|]. split; [exact Hunknown|].
  destruct (authorize_rejects_unknown_identities users to_excel
              (sign_in "mallory" "guess")
              (world_of (Some old_table) fresh_session))
    as (_ & Hstop & _).
  destruct Hstop as (Hraise & _ & Hmain & _ & Hcom);
    [discriminate|exact Hunknown|].
  split; [exact Hraise|]. split; [exact Hmain|]. split; [exact Hcom|].
  split; [exact Hknown|].
  destruct (authorize_rejects_unknown_identities users to_excel
              (sign_in "admin" "admin_pass")
              (world_of (Some old_table) fresh_session))
    as (_ & _ & Hrerun).
  destruct Hrerun as (_ & _ & Hrole & _); [discriminate|exact Hknown|].
  exact (Hrole no_widget).
Defined.

(** C6: the theorem at a file whose second row has no number; the table
    held one row before. *)
Lemma load_failure_commits_empty_table_witness :
  pg_up (world_of (Some old_table) (session_of "admin")) = true ∧
  stored [text "b"; text "y"; text "abc"] = Raise DataError ∧
  ∃ w',
    load_csv_to_postgres (Ok csv_bad_value)
      (world_of (Some old_table) (session_of "admin")) = (Raise DataError, w') ∧
    pg_committed w' = Some [] ∧
    pg_conns w' !! fresh (dom (pg_conns
                     (world_of (Some old_table) (session_of "admin")))) =
      Some {| pending := Some [rec 2 "a" "x" 1]; fetched := None |} ∧
    (get_data w').1 = Ok {| columns := []; rows := [] |}.
Proof.
  split; [reflexivity|]. split; [reflexivity|].
  apply (load_failure_commits_empty_table csv_bad_value
           [[text "a"; text "x"; CInt 1]] [(py "a", py "x", numeric_of_int 1)]
           [text "b"; text "y"; text "abc"] DataError
           [[text "c"; text "z"; CInt 3]]
           (world_of (Some old_table) (session_of "admin"))).
  - reflexivity.
  - reflexivity.
  - repeat constructor.
  - reflexivity.
Defined.

(** C6 as stated fails: in no run in which the insertion of a row raises
    after one or more rows were inserted does the table end up holding
    those first rows. *)
Lemma no_failed_load_keeps_the_first_rows :
  ¬ ∃ (F : PyFloat) (N : PgNumeric) (w : world) (df : DataFrame)
      (good : list (list cell)) (ds : list (pystr * pystr * numeric))
      (bad : list cell) (rest : list (list cell)) (e : exn) (t : list record),
      pg_up w = true ∧
      iterrows df = good ++ bad :: rest ∧
      good ≠ [] ∧
      Forall2 (λ row d, stored row = Ok d) good ds ∧
      stored bad = Raise e ∧
      pg_committed (load_csv_to_postgres (Ok df) w).2 = Some t ∧
      contents <$> t = ds.
Proof.
  intros (F & N & w & df & good & ds & bad & rest & e & t &
          Hup & Hrows & Hne & Hds & Hbad & Hcom & Ht).
  rewrite (load_raise df good ds bad e rest w Hup Hrows Hds Hbad) in Hcom.
  cbn in Hcom. injection Hcom as <-. cbn in Ht. subst ds.
  apply Forall2_nil_inv_r in Hds. done.
Qed.



(** The file 1,2,3.0 / 4,5,6.0 is handed over in floats, row by row:
    the two text columns hold the text of floats. *)
Lemma load_of_floats_stores_their_text :
  iterrows csv_floats
    = [[CFloat 1; CFloat 2; CFloat 3]; [CFloat 4; CFloat 5; CFloat 6]] ∧
  pg_committed (load_csv_to_postgres (Ok csv_floats)
                  (world_of (Some old_table) (session_of "admin"))).2
    = Some [ {| r_id := 2; r_coluna1 := py "1.0"; r_coluna2 := py "2.0";
                r_valor := (3, true) |};
             {| r_id := 3; r_coluna1 := py "4.0"; r_coluna2 := py "5.0";
                r_valor := (6, true) |} ].
Proof. split; reflexivity. Qed.

(** C8, where the script breaks it: read from a table without rows, the
    frame has no column, and [to_pdf] raises [ZeroDivisionError] on it;
    [main] itself raises [KeyError] at the first filter already. *)
Lemma to_pdf_of_empty_table_divides_by_zero :
  (get_data (world_of (Some []) (session_of "reader"))).1
    = Ok {| columns := []; rows := [] |} ∧
  to_pdf {| columns := []; rows := [] |} = Raise ZeroDivisionError ∧
  (main users to_excel no_widget (world_of (Some []) (session_of "reader"))).1
    = Raise KeyError.
Proof. repeat split; by vm_compute. Qed.

(** C9, where the script breaks it: a load that raises at a row and a
    query that raises because the table does not exist both return with
    their connection still open. *)
Lemma connection_stays_open_when_a_statement_raises :
  pg_conns (world_of (Some old_table) (session_of "admin")) = ∅ ∧
  (load_csv_to_postgres (Ok csv_bad_value)
     (world_of (Some old_table) (session_of "admin"))).1 = Raise DataError ∧
  pg_conns (load_csv_to_postgres (Ok csv_bad_value)
              (world_of (Some old_table) (session_of "admin"))).2
    = {[ 0%nat := {| pending := Some [rec 2 "a" "x" 1]; fetched := None |} ]} ∧
  (get_data (world_of None (session_of "reader"))).1 = Raise UndefinedTable ∧
  pg_conns (get_data (world_of None (session_of "reader"))).2
    = {[ 0%nat := {| pending := None; fetched := None |} ]}.
Proof. repeat split; by vm_compute. Qed.

(** C10: the theorem at a frame with the euro sign in a cell. *)
Lemma to_pdf_needs_latin1_witness :
  rectangular frame_euro ∧
  ¬ Forall (Forall latin1) (frame_texts frame_euro) ∧
  to_pdf frame_euro = Raise FPDFUnicodeEncodingException.
Proof.
  assert (Hno : ¬ Forall (Forall latin1) (frame_texts frame_euro)).
  { intros Hall. apply Forall_lookup_1 with (i := 5%nat) (x := [8364%N]) in Hall;
      [|reflexivity].
    apply Forall_cons in Hall as [Hc _]. by vm_compute in Hc. }
  split; [repeat constructor|]. split; [exact Hno|].
  apply (to_pdf_needs_latin1 frame_euro); [repeat constructor|exact Hno].
Defined.

(** The idempotence of the filter at the frame of three rows, filtered on
    coluna1 = "a" and coluna2 = "y". *)
Lemma df_filtrado_idempotent_witness :
  rectangular (pd_DataFrame (dict_of_record <$>
                 [rec 1 "a" "x" 1; rec 2 "b" "y" 2; rec 3 "a" "y" 3])) ∧
  df_filtrado (pd_DataFrame (dict_of_record <$>
                 [rec 1 "a" "x" 1; rec 2 "b" "y" 2; rec 3 "a" "y" 3]))
              (text "a") (text "y")
    = Ok (pd_DataFrame (dict_of_record <$> [rec 3 "a" "y" 3])) ∧
  df_filtrado (pd_DataFrame (dict_of_record <$> [rec 3 "a" "y" 3]))
              (text "a") (text "y")
    = Ok (pd_DataFrame (dict_of_record <$> [rec 3 "a" "y" 3])).
Proof.
  split; [repeat constructor|]. split; [reflexivity|].
  apply (df_filtrado_idempotent
           (pd_DataFrame (dict_of_record <$>
              [rec 1 "a" "x" 1; rec 2 "b" "y" 2; rec 3 "a" "y" 3]))
           1 2 (text "a") (text "y")).
  - repeat constructor.
  - reflexivity.
  - reflexivity.
  - reflexivity.
Defined.

(** The replacement at the file of three rows, loaded over a table of one
    row. *)
Lemma load_replaces_table_witness :
  pg_up (world_of (Some old_table) (session_of "admin")) = true ∧
  ∃ w',
    load_csv_to_postgres (Ok csv_abc)
      (world_of (Some old_table) (session_of "admin")) = (Ok tt, w') ∧
    pg_committed w'
      = Some [rec 2 "a" "x" 1; rec 3 "b" "y" 2; rec 4 "a" "y" 3] ∧
    pg_conns w' = ∅.
Proof.
  split; [reflexivity|].
  destruct (load_replaces_table csv_abc
              [(py "a", py "x", numeric_of_int 1);
               (py "b", py "y", numeric_of_int 2);
               (py "a", py "y", numeric_of_int 3)]
              (world_of (Some old_table) (session_of "admin")))
    as (w' & Hload & Hcom & _ & Hconns).
  - reflexivity.
  - repeat constructor.
  - exists w'. split; [exact Hload|]. split; [exact Hcom|exact Hconns].
Defined.

(** The file a,x,1 and the file a,x,1,ignored are loaded alike. *)
Lemma load_reads_the_first_three_cells_witness :
  take 3 <$> iterrows csv_one = take 3 <$> iterrows csv_wide ∧
  load_csv_to_postgres (Ok csv_one) (world_of (Some old_table) (session_of "admin"))
    = load_csv_to_postgres (Ok csv_wide)
        (world_of (Some old_table) (session_of "admin")).
Proof.
  split; [reflexivity|].
  apply (load_reads_the_first_three_cells csv_one csv_wide). reflexivity.
Defined.

(** The unreachable server at a table of one row. *)
Lemma unreachable_server_changes_nothing_witness :
  pg_up (world_down (Some old_table) (session_of "admin")) = false ∧
  (load_csv_to_postgres (Ok csv_abc)
     (world_down (Some old_table) (session_of "admin"))).1
    = Raise OperationalError ∧
  pg_committed (load_csv_to_postgres (Ok csv_abc)
                  (world_down (Some old_table) (session_of "admin"))).2
    = Some old_table.
Proof.
  split; [reflexivity|].
  destruct (unreachable_server_changes_nothing csv_abc
              (world_down (Some old_table) (session_of "admin")))
    as (Hload & _ & Hcom & _); [reflexivity|].
  split; [exact Hload|exact Hcom].
Defined.

(** Loading the file of three rows twice. *)
Lemma load_again_same_contents_new_ids_witness :
  pg_up (world_of None (session_of "admin")) = true ∧
  ∃ w1 w2 t1 t2,
    load_csv_to_postgres (Ok csv_abc) (world_of None (session_of "admin"))
      = (Ok tt, w1) ∧
    load_csv_to_postgres (Ok csv_abc) w1 = (Ok tt, w2) ∧
    pg_committed w1 = Some t1 ∧
    pg_committed w2 = Some t2 ∧
    contents <$> t1 = [(py "a", py "x", numeric_of_int 1);
                       (py "b", py "y", numeric_of_int 2);
                       (py "a", py "y", numeric_of_int 3)] ∧
    contents <$> t2 = [(py "a", py "x", numeric_of_int 1);
                       (py "b", py "y", numeric_of_int 2);
                       (py "a", py "y", numeric_of_int 3)] ∧
    ∀ r1 r2, r1 ∈ t1 → r2 ∈ t2 → r_id r1 < r_id r2.
Proof.
  split; [reflexivity|].
  apply (load_again_same_contents_new_ids csv_abc
           [(py "a", py "x", numeric_of_int 1);
            (py "b", py "y", numeric_of_int 2);
            (py "a", py "y", numeric_of_int 3)]
           (world_of None (session_of "admin"))).
  - reflexivity.
  - repeat constructor.
Defined.

(** An ingestion after two runs: the first run signs in as admin. *)
Lemma ingestion_needs_an_admin_sign_in_witness :
  logged_in (st_session (world_of (Some old_table) fresh_session)) ≠ Some true ∧
  ingest_call ∈ log (run_all users to_excel
                       [sign_in "admin" "admin_pass"; upload_of csv_abc]
                       (world_of (Some old_table) fresh_session)) ∧
  Exists (admin_sign_in users)
         [sign_in "admin" "admin_pass"; upload_of csv_abc].
Proof.
  assert (Hin : ingest_call ∈ log (run_all users to_excel
                       [sign_in "admin" "admin_pass"; upload_of csv_abc]
                       (world_of (Some old_table) fresh_session))).
  { apply (list_elem_of_lookup_2 _ 8%nat). by vm_compute. }
  split; [discriminate|]. split; [exact Hin|].
  apply (ingestion_needs_an_admin_sign_in users to_excel
           [sign_in "admin" "admin_pass"; upload_of csv_abc]
           (world_of (Some old_table) fresh_session)).
  - discriminate.
  - apply not_elem_of_nil.
  - exact Hin.
Defined.

(** The session after "guest" has signed in and looked at the dashboard. *)
Lemma sessions_name_an_identity_of_users_witness :
  session_ok users_with_guest
    (st_session (world_of (Some old_table) fresh_session)) ∧
  session_ok users_with_guest
    (st_session (run_all users_with_guest to_excel
                   [sign_in "guest" "guest_pass"; no_widget]
                   (world_of (Some old_table) fresh_session))).
Proof.
  split; [discriminate|].
  apply (sessions_name_an_identity_of_users users_with_guest to_excel
           [sign_in "guest" "guest_pass"; no_widget]
           (world_of (Some old_table) fresh_session)).
  discriminate.
Defined.

(** The role of the session of "analyst". *)
Lemma check_role_returns_one_of_three_roles_witness :
  (check_role (world_of (Some old_table) (session_of "analyst"))).1
    = Ok (py "analyst") ∧
  py "analyst" ∈ [py "admin"; py "analyst"; py "reader"].
Proof.
  split; [reflexivity|].
  apply (check_role_returns_one_of_three_roles
           (world_of (Some old_table) (session_of "analyst")) (py "analyst")).
  reflexivity.
Defined.

(** A reader opens the dashboard while the table is empty. *)
Lemma main_raises_KeyError_while_the_table_is_empty_witness :
  logged_in (st_session (world_of (Some []) (session_of "reader"))) = Some true ∧
  pg_committed (world_of (Some []) (session_of "reader")) = Some [] ∧
  (main users to_excel no_widget (world_of (Some []) (session_of "reader"))).1
    = Raise KeyError.
Proof.
  split; [reflexivity|]. split; [reflexivity|].
  apply (main_raises_KeyError_while_the_table_is_empty users to_excel no_widget
           (world_of (Some []) (session_of "reader")) (py "reader")).
  - reflexivity.
  - reflexivity.
  - reflexivity.
  - left. split; [reflexivity|]. left. discriminate.
Defined.

(** A reader opens the dashboard before anything was ingested. *)
Lemma main_raises_UndefinedTable_before_the_first_load_witness :
  pg_committed (world_of None (session_of "reader")) = None ∧
  (main users to_excel no_widget (world_of None (session_of "reader"))).1
    = Raise UndefinedTable.
Proof.
  split; [reflexivity|].
  destruct (main_raises_UndefinedTable_before_the_first_load users to_excel
              no_widget (world_of None (session_of "reader")) (py "reader"))
    as [Hraise _].
  - reflexivity.
  - reflexivity.
  - reflexivity.
  - reflexivity.
  - left. discriminate.
  - exact Hraise.
Defined.

(** The third option of the first selectbox on the frame of three rows. *)
Lemma selected_value_keeps_a_row_witness :
  column (pd_DataFrame (dict_of_record <$>
            [rec 1 "a" "x" 1; rec 2 "b" "y" 2; rec 3 "a" "y" 3]))
         (py "coluna1") = Ok [text "a"; text "b"; text "a"] ∧
  ∃ out,
    df_filtrado (pd_DataFrame (dict_of_record <$>
                   [rec 1 "a" "x" 1; rec 2 "b" "y" 2; rec 3 "a" "y" 3]))
                (selectbox Todos (unique [text "a"; text "b"; text "a"]) 2)
                Todos = Ok out ∧
    rows out ≠ [].
Proof.
  split; [reflexivity|].
  destruct (selected_value_keeps_a_row
              (pd_DataFrame (dict_of_record <$>
                 [rec 1 "a" "x" 1; rec 2 "b" "y" 2; rec 3 "a" "y" 3]))
              1 [text "a"; text "b"; text "a"] 2)
    as (_ & _ & out & Hout & _ & Hrows).
  - repeat constructor.
  - reflexivity.
  - reflexivity.
  - repeat constructor.
  - discriminate.
  - exists out. split; [exact Hout|exact Hrows].
Defined.

(** A server that accepts everything: the five calls are made and the
    call returns. *)
Lemma send_email_accepted :
  send_email int_of_str accepts mail_env (py "to@example.org")
             (py "Dados") (py "Segue o relatório") [] (py "dados.pdf") no_mail
    = (Sent tt,
       {| sessions := 0;
          calls := mail_script mail_env 2525
                     (build_message mail_env (py "to@example.org") (py "Dados")
                        (py "Segue o relatório") [] (py "dados.pdf"))
                   ++ [smtp_exit] |}).
Proof. by vm_compute. Qed.

(** A server that refuses the login: the message is not submitted and the
    session is closed. *)
Lemma send_email_session_witness :
  send_email int_of_str refuses_login mail_env (py "to@example.org")
             (py "Dados") (py "Segue o relatório") [] (py "dados.pdf") no_mail
    = (Failed (SMTPException 535),
       {| sessions := 0;
          calls := [SMTP (Some (py "smtp.example.org")) 2525; starttls;
                    smtp_login (Some (py "dashboard")) (Some (py "secret"));
                    smtp_exit] |}) ∧
  sessions {| sessions := 0;
              calls := [SMTP (Some (py "smtp.example.org")) 2525; starttls;
                        smtp_login (Some (py "dashboard")) (Some (py "secret"));
                        smtp_exit] |} = sessions no_mail.
Proof.
  split; [reflexivity|].
  destruct (send_email_session int_of_str refuses_login mail_env
              (py "to@example.org") (py "Dados") (py "Segue o relatório") []
              (py "dados.pdf") no_mail (Failed (SMTPException 535))
              {| sessions := 0;
                 calls := [SMTP (Some (py "smtp.example.org")) 2525; starttls;
                           smtp_login (Some (py "dashboard")) (Some (py "secret"));
                           smtp_exit] |}) as [Hsessions _].
  - reflexivity.
  - exact Hsessions.
Defined.

(** A reader opens the dashboard on a table with one row: the run ends
    in [to_pdf]. *)
Lemma main_ends_in_the_pdf_export_witness :
  (main users to_excel no_widget (world_of (Some old_table) (session_of "reader"))).1
    = Raise AttributeError ∧
  pg_committed
    (main users to_excel no_widget (world_of (Some old_table) (session_of "reader"))).2
    = Some old_table.
Proof.
  destruct (main_ends_in_the_pdf_export users to_excel no_widget
              (world_of (Some old_table) (session_of "reader")) (py "reader")
              old_table) as (Hraise & _ & Hcom & _).
  - reflexivity.
  - reflexivity.
  - reflexivity.
  - left. split; [reflexivity|]. left. discriminate.
  - discriminate.
  - vm_compute. repeat constructor; lia.
  - intros df. by eexists.
  - by split.
Defined.
